(** * goawsloc: request shaping and flag validation of the [loc] command line

    A shallow embedding of the Go packages [placesvc]
    (pkg/awslocation/placesvc/service.go) and [loc] (subcmds/loc/root.go,
    subcmds/loc/setup.go), and the properties of the requests they build.

    Conventions of the embedding.
    - [float64] is Rocq's binary64 [float]; [x == 0] and [x != 0] are the
      IEEE comparisons, so both zeros are "zero" and a NaN is "nonzero".
    - [string] is a sequence of bytes, as in Go.
    - A [*string] is an [option string] ([None] is nil); a slice is a list
      (nil is the empty list); a [map[string]string] is a [gmap].
    - A Go [error] result is a value of [error]; a pair [(T, error)] is the
      sum [error + T].
    - The calls made on the location client are recorded, in order, in a
      trace threaded through the monad [M]; a panic and [log.Fatal] end the
      computation.
    - What is written to standard output and to the logger is not part of
      the model, nor is what the printing code reads from a response. *)

From Stdlib Require Import PrimFloat Ascii String.
From stdpp Require Import gmap strings list.

Set Default Proof Using "Type".

(** ** Go values *)

Module Go.

Abbreviation float64 := float.

(** [x == 0] on float64. *)
Definition eq0 (x : float64) : bool := PrimFloat.eqb x 0%float.

(** [x != 0] on float64: the negation of [==], true for a NaN. *)
Definition ne0 (x : float64) : bool := negb (PrimFloat.eqb x 0%float).

(** Number of occurrences of the byte [c] in [s]. *)
Fixpoint count_byte (c : ascii) (s : string) : nat :=
  match s with
  | EmptyString => 0
  | String a s' => (if Ascii.eqb a c then 1 else 0) + count_byte c s'
  end.

(** [strings.Split(s, sep)] for a separator [sep] of one byte [c]: the
    pieces of [s] between the occurrences of [c], in order; there is one
    piece more than there are occurrences. *)
Fixpoint strings_Split (s : string) (c : ascii) : list string :=
  match s with
  | EmptyString => [EmptyString]
  | String a s' =>
      if Ascii.eqb a c then EmptyString :: strings_Split s' c
      else match strings_Split s' c with
           | p :: ps => String a p :: ps
           | [] => [String a EmptyString]
           end
  end.

End Go.

(** ** The surface of the AWS SDK the program uses *)

(** Types of the SDK whose contents the program only passes on. *)
Class SDKTypes : Type := {
  aws_Config : Type;
  APIError : Type;
  MarshalError : Type;
  CreatePlaceIndexOutput : Type;
  DeletePlaceIndexOutput : Type;
  DescribePlaceIndexOutput : Type;
  ListPlaceIndexesOutput : Type;
  UpdatePlaceIndexOutput : Type;
  SearchPlaceIndexForPositionSummary : Type;
  SearchForPositionResult : Type;
  SearchPlaceIndexForSuggestionsSummary : Type;
  SearchForSuggestionsResult : Type;
  SearchPlaceIndexForTextSummary : Type;
  SearchForTextResult : Type
}.

(** The request structures, with the fields the source names. A field the
    source leaves out of a literal holds Go's zero value. *)

Module DataSourceConfiguration.
Record t : Type := { IntendedUse : string }.
End DataSourceConfiguration.

Module CreatePlaceIndexInput.
Record t : Type := {
  DataSource : option string;
  DataSourceConfiguration : option DataSourceConfiguration.t;
  Description : option string;
  IndexName : option string;
  PricingPlan : string;
  Tags : gmap string string
  }.
End CreatePlaceIndexInput.

Module DeletePlaceIndexInput.
Record t : Type := { IndexName : option string }.
End DeletePlaceIndexInput.

Module DescribePlaceIndexInput.
Record t : Type := { IndexName : option string }.
End DescribePlaceIndexInput.

Module ListPlaceIndexesInput.
Record t : Type := { }.
End ListPlaceIndexesInput.

Module SearchPlaceIndexForPositionInput.
Record t : Type := {
  IndexName : option string;
  Language : option string;
  Position : list Go.float64
  }.
End SearchPlaceIndexForPositionInput.

Module SearchPlaceIndexForSuggestionsInput.
Record t : Type := {
  IndexName : option string;
  Text : option string;
  BiasPosition : list Go.float64;
  FilterBBox : list Go.float64;
  FilterCountries : list string;
  Language : option string
  }.
End SearchPlaceIndexForSuggestionsInput.

Module SearchPlaceIndexForTextInput.
Record t : Type := {
  IndexName : option string;
  Text : option string;
  BiasPosition : list Go.float64;
  FilterBBox : list Go.float64;
  FilterCountries : list string;
  Language : option string
  }.
End SearchPlaceIndexForTextInput.

Module UpdatePlaceIndexInput.
Record t : Type := {
  IndexName : option string;
  DataSourceConfiguration : option DataSourceConfiguration.t;
  Description : option string;
  PricingPlan : string
  }.
End UpdatePlaceIndexInput.

(** A call made on the location client. *)
Inductive Request : Type :=
| ReqCreatePlaceIndex (i : CreatePlaceIndexInput.t)
| ReqDeletePlaceIndex (i : DeletePlaceIndexInput.t)
| ReqDescribePlaceIndex (i : DescribePlaceIndexInput.t)
| ReqListPlaceIndexes (i : ListPlaceIndexesInput.t)
| ReqSearchPlaceIndexForPosition (i : SearchPlaceIndexForPositionInput.t)
| ReqSearchPlaceIndexForSuggestions (i : SearchPlaceIndexForSuggestionsInput.t)
| ReqSearchPlaceIndexForText (i : SearchPlaceIndexForTextInput.t)
| ReqUpdatePlaceIndex (i : UpdatePlaceIndexInput.t).

(** The fields of a request, read across the eight request structures:
    [None] where the structure has no such field. *)
Definition Request_IndexName (r : Request) : option (option string) :=
  match r with
  | ReqCreatePlaceIndex i => Some (CreatePlaceIndexInput.IndexName i)
  | ReqDeletePlaceIndex i => Some (DeletePlaceIndexInput.IndexName i)
  | ReqDescribePlaceIndex i => Some (DescribePlaceIndexInput.IndexName i)
  | ReqListPlaceIndexes _ => None
  | ReqSearchPlaceIndexForPosition i => Some (SearchPlaceIndexForPositionInput.IndexName i)
  | ReqSearchPlaceIndexForSuggestions i => Some (SearchPlaceIndexForSuggestionsInput.IndexName i)
  | ReqSearchPlaceIndexForText i => Some (SearchPlaceIndexForTextInput.IndexName i)
  | ReqUpdatePlaceIndex i => Some (UpdatePlaceIndexInput.IndexName i)
  end.

Definition Request_DataSource (r : Request) : option (option string) :=
  match r with
  | ReqCreatePlaceIndex i => Some (CreatePlaceIndexInput.DataSource i)
  | _ => None
  end.

Definition Request_PricingPlan (r : Request) : option string :=
  match r with
  | ReqCreatePlaceIndex i => Some (CreatePlaceIndexInput.PricingPlan i)
  | ReqUpdatePlaceIndex i => Some (UpdatePlaceIndexInput.PricingPlan i)
  | _ => None
  end.

Definition Request_IntendedUse (r : Request) : option string :=
  match r with
  | ReqCreatePlaceIndex i =>
      DataSourceConfiguration.IntendedUse <$> CreatePlaceIndexInput.DataSourceConfiguration i
  | ReqUpdatePlaceIndex i =>
      DataSourceConfiguration.IntendedUse <$> UpdatePlaceIndexInput.DataSourceConfiguration i
  | _ => None
  end.

Definition Request_Language (r : Request) : option (option string) :=
  match r with
  | ReqSearchPlaceIndexForPosition i => Some (SearchPlaceIndexForPositionInput.Language i)
  | ReqSearchPlaceIndexForSuggestions i => Some (SearchPlaceIndexForSuggestionsInput.Language i)
  | ReqSearchPlaceIndexForText i => Some (SearchPlaceIndexForTextInput.Language i)
  | _ => None
  end.

Definition Request_BiasPosition (r : Request) : option (list Go.float64) :=
  match r with
  | ReqSearchPlaceIndexForSuggestions i => Some (SearchPlaceIndexForSuggestionsInput.BiasPosition i)
  | ReqSearchPlaceIndexForText i => Some (SearchPlaceIndexForTextInput.BiasPosition i)
  | _ => None
  end.

Definition Request_FilterBBox (r : Request) : option (list Go.float64) :=
  match r with
  | ReqSearchPlaceIndexForSuggestions i => Some (SearchPlaceIndexForSuggestionsInput.FilterBBox i)
  | ReqSearchPlaceIndexForText i => Some (SearchPlaceIndexForTextInput.FilterBBox i)
  | _ => None
  end.


(** The responses of the three searches, and the envelopes
    [PositionSummaryResults], [SuggestionSummaryResults] and
    [TextSummaryResults] of setup.go, which all have one shape. *)

Module SearchOutput.
Record t (S R : Type) : Type := { Summary : option S; Results : list R }.
Arguments Summary {S R} _.
Arguments Results {S R} _.
End SearchOutput.

Module SummaryResults.
Record t (S R : Type) : Type := { Summary : option S; Results : list R }.
Arguments Build_t {S R} _ _.
Arguments Summary {S R} _.
Arguments Results {S R} _.
End SummaryResults.

Module LoadOptions.
Record t : Type := { Region : string; SharedConfigProfile : string }.
End LoadOptions.

Inductive logrus_Logger : Type := logrus_New.

(** ** Errors, the location client and the effects of a run *)

(** How a computation ends: it returns, it panics, or the process exits
    through [log.Fatal]. *)
Inductive outcome (A : Type) : Type :=
| Returned (a : A)
| Panicked
| Exited.
Arguments Returned {A} _.
Arguments Panicked {A}.
Arguments Exited {A}.

(** A computation over the trace of the calls made on the client so far. *)
Definition M (A : Type) : Type := list Request -> outcome A * list Request.

#[global] Instance M_ret : MRet M := fun A a tr => (Returned a, tr).

#[global] Instance M_bind : MBind M := fun A B k m tr =>
  match m tr with
  | (Returned a, tr') => k a tr'
  | (Panicked, tr') => (Panicked, tr')
  | (Exited, tr') => (Exited, tr')
  end.

Definition panic {A} : M A := fun tr => (Panicked, tr).
Definition log_Fatal {A} : M A := fun tr => (Exited, tr).

(** Run a computation from the empty trace. *)
Definition run {A} (m : M A) : outcome A * list Request := m [].

Section Effects.
Context `{SDKTypes}.

(** A Go [error]: the text-only error of [errors.New] and [fmt.Errorf], an
    error surfaced by the location client, or one of [json.Marshal]. *)
Inductive error : Type :=
| errorString (text : string)
| apiError (e : APIError)
| marshalError (e : MarshalError).

Definition SearchPlaceIndexForPositionOutput : Type :=
  SearchOutput.t SearchPlaceIndexForPositionSummary SearchForPositionResult.
Definition SearchPlaceIndexForSuggestionsOutput : Type :=
  SearchOutput.t SearchPlaceIndexForSuggestionsSummary SearchForSuggestionsResult.
Definition SearchPlaceIndexForTextOutput : Type :=
  SearchOutput.t SearchPlaceIndexForTextSummary SearchForTextResult.

(** [*location.Client]: what each of the eight calls answers. *)
Record location_Client : Type := {
  do_CreatePlaceIndex : CreatePlaceIndexInput.t -> APIError + CreatePlaceIndexOutput;
  do_DeletePlaceIndex : DeletePlaceIndexInput.t -> APIError + DeletePlaceIndexOutput;
  do_DescribePlaceIndex : DescribePlaceIndexInput.t -> APIError + DescribePlaceIndexOutput;
  do_ListPlaceIndexes : ListPlaceIndexesInput.t -> APIError + ListPlaceIndexesOutput;
  do_SearchPlaceIndexForPosition :
    SearchPlaceIndexForPositionInput.t -> APIError + SearchPlaceIndexForPositionOutput;
  do_SearchPlaceIndexForSuggestions :
    SearchPlaceIndexForSuggestionsInput.t -> APIError + SearchPlaceIndexForSuggestionsOutput;
  do_SearchPlaceIndexForText :
    SearchPlaceIndexForTextInput.t -> APIError + SearchPlaceIndexForTextOutput;
  do_UpdatePlaceIndex : UpdatePlaceIndexInput.t -> APIError + UpdatePlaceIndexOutput
}.

(** What the program reads from its surroundings: the file system, the
    configuration file read by viper, the environment and the SDK's loader.
    [viper_ReadInConfig None] searches [config.yaml] in the working
    directory, [viper_ReadInConfig (Some p)] reads the file [p]; the answer
    is the error-free case's [viper.GetString], or [None] on failure. *)
Record Env : Type := {
  os_Stat : string -> bool;
  path_Clean : string -> string;
  viper_ReadInConfig : option string -> option (string -> string);
  os_Getenv : string -> string;
  awsconfig_LoadDefaultConfig : LoadOptions.t -> option aws_Config;
  location_NewFromConfig : aws_Config -> location_Client
}.

(** The answer of the client, as the Go pair of a result and an error. *)
Definition answer {O} (r : APIError + O) : error + O :=
  match r with
  | inl e => inl (apiError e)
  | inr o => inr o
  end.

(** The call [h] of a client made with [input], recorded as [wrap input]. *)
Definition call {I O} (wrap : I -> Request) (h : I -> APIError + O) (input : I)
  : M (error + O) :=
  fun tr => (Returned (answer (h input)), tr ++ [wrap input]).

End Effects.


(** ** Package placesvc (pkg/awslocation/placesvc/service.go) *)

Module placesvc.

Module LatLon.
Record t : Type := { Latitude : Go.float64; Longitude : Go.float64 }.
End LatLon.

Module Box.
Record t : Type := {
  X1 : Go.float64;
  Y1 : Go.float64;
  X2 : Go.float64;
  Y2 : Go.float64
}.
End Box.

Module SuggestionSearch.
Record t : Type := {
  Text : option string;
  BiasPosition : option LatLon.t;
  FilterBBox : option Box.t;
  FilterCountries : list string;
  Language : option string
}.
End SuggestionSearch.

Section WithSDK.
Context `{SDKTypes}.

Record Config : Type := {
  region : string;
  profile : string;
  indexService : string;
  indexName : string;
  intendedUse : string;
  language : string;
  pricingPlan : string;
  log : option logrus_Logger;
  svc : option location_Client
}.

Definition Option : Type := Config -> Config.

(** [&Config{}]: every field at its zero value. *)
Definition Config_zero : Config :=
  {| region := ""; profile := ""; indexService := ""; indexName := "";
     intendedUse := ""; language := ""; pricingPlan := "";
     log := None; svc := None |}.

Definition with_region (v : string) (c : Config) : Config :=
  {| region := v; profile := profile c; indexService := indexService c;
     indexName := indexName c; intendedUse := intendedUse c;
     language := language c; pricingPlan := pricingPlan c;
     log := log c; svc := svc c |}.

Definition with_profile (v : string) (c : Config) : Config :=
  {| region := region c; profile := v; indexService := indexService c;
     indexName := indexName c; intendedUse := intendedUse c;
     language := language c; pricingPlan := pricingPlan c;
     log := log c; svc := svc c |}.

Definition with_indexService (v : string) (c : Config) : Config :=
  {| region := region c; profile := profile c; indexService := v;
     indexName := indexName c; intendedUse := intendedUse c;
     language := language c; pricingPlan := pricingPlan c;
     log := log c; svc := svc c |}.

Definition with_indexName (v : string) (c : Config) : Config :=
  {| region := region c; profile := profile c; indexService := indexService c;
     indexName := v; intendedUse := intendedUse c;
     language := language c; pricingPlan := pricingPlan c;
     log := log c; svc := svc c |}.

Definition with_intendedUse (v : string) (c : Config) : Config :=
  {| region := region c; profile := profile c; indexService := indexService c;
     indexName := indexName c; intendedUse := v;
     language := language c; pricingPlan := pricingPlan c;
     log := log c; svc := svc c |}.

Definition with_language (v : string) (c : Config) : Config :=
  {| region := region c; profile := profile c; indexService := indexService c;
     indexName := indexName c; intendedUse := intendedUse c;
     language := v; pricingPlan := pricingPlan c;
     log := log c; svc := svc c |}.

Definition with_pricingPlan (v : string) (c : Config) : Config :=
  {| region := region c; profile := profile c; indexService := indexService c;
     indexName := indexName c; intendedUse := intendedUse c;
     language := language c; pricingPlan := v;
     log := log c; svc := svc c |}.

Definition with_log (v : option logrus_Logger) (c : Config) : Config :=
  {| region := region c; profile := profile c; indexService := indexService c;
     indexName := indexName c; intendedUse := intendedUse c;
     language := language c; pricingPlan := pricingPlan c;
     log := v; svc := svc c |}.

Definition with_svc (v : option location_Client) (c : Config) : Config :=
  {| region := region c; profile := profile c; indexService := indexService c;
     indexName := indexName c; intendedUse := intendedUse c;
     language := language c; pricingPlan := pricingPlan c;
     log := log c; svc := v |}.

Definition SetAWSRegion (region : string) : Option := with_region region.
Definition SetAWSProfile (profile : string) : Option := with_profile profile.
Definition SetIndexName (indexName : string) : Option := with_indexName indexName.
Definition SetIndexService (indexService : string) : Option :=
  with_indexService indexService.
Definition SetLanguage (language : string) : Option := with_language language.
Definition SetLogger (log : logrus_Logger) : Option := with_log (Some log).

(** The fields [New] fills in when the options left them empty. *)
Definition defaults (env : Env) (config : Config) : Config :=
  let config :=
    if String.eqb (region config) "" then with_region (os_Getenv env "AWS_REGION") config
    else config in
  let config :=
    if String.eqb (indexService config) "" then with_indexService "Here" config
    else config in
  let config :=
    if String.eqb (intendedUse config) "" then with_intendedUse "SingleUse" config
    else config in
  let config :=
    if String.eqb (language config) "" then with_language "en" config
    else config in
  if String.eqb (pricingPlan config) "" then with_pricingPlan "RequestBasedUsage" config
  else config.

(** The closure [New] hands to [awsconfig.LoadDefaultConfig]. *)
Definition loadOptions (config : Config) (o : LoadOptions.t) : LoadOptions.t :=
  let o := {| LoadOptions.Region := region config;
              LoadOptions.SharedConfigProfile := LoadOptions.SharedConfigProfile o |} in
  if negb (String.eqb (profile config) "")
  then {| LoadOptions.Region := LoadOptions.Region o;
          LoadOptions.SharedConfigProfile := profile config |}
  else o.

Definition New (env : Env) (opts : list Option) : M Config :=
  let config := foldl (fun config opt => opt config) Config_zero opts in
  let config := defaults env config in
  match awsconfig_LoadDefaultConfig env
          (loadOptions config {| LoadOptions.Region := ""; LoadOptions.SharedConfigProfile := "" |}) with
  | None => panic
  | Some c => mret (with_svc (Some (location_NewFromConfig env c)) config)
  end.

Definition sanity (c : Config) : option error :=
  if String.eqb (indexName c) "" then Some (errorString "indexName not set")
  else None.

(** A method of [config.svc]: a nil client panics. *)
Definition on_svc {I O} (config : Config) (wrap : I -> Request)
    (h : location_Client -> I -> APIError + O) (input : I) : M (error + O) :=
  match svc config with
  | None => panic
  | Some client => call wrap (h client) input
  end.

Definition CreatePlaceIndex (config : Config) (description : string)
    (tags : gmap string string) : M (error + CreatePlaceIndexOutput) :=
  match sanity config with
  | Some err => mret (inl err)
  | None =>
      on_svc config ReqCreatePlaceIndex do_CreatePlaceIndex
        {| CreatePlaceIndexInput.DataSource := Some (indexService config);
           CreatePlaceIndexInput.DataSourceConfiguration :=
             Some {| DataSourceConfiguration.IntendedUse := intendedUse config |};
           CreatePlaceIndexInput.Description := Some description;
           CreatePlaceIndexInput.IndexName := Some (indexName config);
           CreatePlaceIndexInput.PricingPlan := pricingPlan config;
           CreatePlaceIndexInput.Tags := tags |}
  end.

Definition DeletePlaceIndex (config : Config) : M (error + DeletePlaceIndexOutput) :=
  match sanity config with
  | Some err => mret (inl err)
  | None =>
      on_svc config ReqDeletePlaceIndex do_DeletePlaceIndex
        {| DeletePlaceIndexInput.IndexName := Some (indexName config) |}
  end.

Definition DescribePlaceIndex (config : Config) (indexName' : string)
  : M (error + DescribePlaceIndexOutput) :=
  let issue (indexName' : string) :=
    on_svc config ReqDescribePlaceIndex do_DescribePlaceIndex
      {| DescribePlaceIndexInput.IndexName := Some indexName' |} in
  if String.eqb indexName' "" then
    match sanity config with
    | Some err => mret (inl err)
    | None => issue (indexName config)
    end
  else issue indexName'.

Definition ListPlaceIndexes (config : Config) : M (error + ListPlaceIndexesOutput) :=
  on_svc config ReqListPlaceIndexes do_ListPlaceIndexes
    ListPlaceIndexesInput.Build_t.

Definition SearchPlaceIndexForPosition (config : Config) (latLon : LatLon.t)
  : M (error + SearchPlaceIndexForPositionOutput) :=
  on_svc config ReqSearchPlaceIndexForPosition do_SearchPlaceIndexForPosition
    {| SearchPlaceIndexForPositionInput.IndexName := Some (indexName config);
       SearchPlaceIndexForPositionInput.Language := Some (language config);
       SearchPlaceIndexForPositionInput.Position :=
         [LatLon.Longitude latLon; LatLon.Latitude latLon] |}.

Definition SearchPlaceIndexForSuggestions (config : Config) (search : SuggestionSearch.t)
  : M (error + SearchPlaceIndexForSuggestionsOutput) :=
  on_svc config ReqSearchPlaceIndexForSuggestions do_SearchPlaceIndexForSuggestions
    {| SearchPlaceIndexForSuggestionsInput.IndexName := Some (indexName config);
       SearchPlaceIndexForSuggestionsInput.Text := SuggestionSearch.Text search;
       SearchPlaceIndexForSuggestionsInput.BiasPosition := [];
       SearchPlaceIndexForSuggestionsInput.FilterBBox := [];
       SearchPlaceIndexForSuggestionsInput.FilterCountries :=
         SuggestionSearch.FilterCountries search;
       SearchPlaceIndexForSuggestionsInput.Language := Some (language config) |}.

Definition SearchPlaceIndexForText (config : Config) (search : SuggestionSearch.t)
  : M (error + SearchPlaceIndexForTextOutput) :=
  on_svc config ReqSearchPlaceIndexForText do_SearchPlaceIndexForText
    {| SearchPlaceIndexForTextInput.IndexName := Some (indexName config);
       SearchPlaceIndexForTextInput.Text := SuggestionSearch.Text search;
       SearchPlaceIndexForTextInput.BiasPosition := [];
       SearchPlaceIndexForTextInput.FilterBBox := [];
       SearchPlaceIndexForTextInput.FilterCountries :=
         SuggestionSearch.FilterCountries search;
       SearchPlaceIndexForTextInput.Language := Some (language config) |}.

Definition UpdatePlaceIndex (config : Config) (description : string)
  : M (error + UpdatePlaceIndexOutput) :=
  match sanity config with
  | Some err => mret (inl err)
  | None =>
      on_svc config ReqUpdatePlaceIndex do_UpdatePlaceIndex
        {| UpdatePlaceIndexInput.IndexName := Some (indexName config);
           UpdatePlaceIndexInput.DataSourceConfiguration :=
             Some {| DataSourceConfiguration.IntendedUse := intendedUse config |};
           UpdatePlaceIndexInput.Description := Some description;
           UpdatePlaceIndexInput.PricingPlan := pricingPlan config |}
  end.

End WithSDK.

End placesvc.

(** [json.Marshal] at the types the program encodes. *)
Class Marshal `{SDKTypes} (T : Type) : Type :=
  json_Marshal : T -> MarshalError + string.

(** ** Package loc (subcmds/loc/root.go, subcmds/loc/setup.go) *)

Module loc.

Record Flags : Type := {
  countries : list string;
  description : string;
  dotenvPath : string;
  indexName : string;
  json : bool;
  lat : Go.float64;
  loglevel : string;
  lon : Go.float64;
  text : string;
  x1 : Go.float64;
  x2 : Go.float64;
  y1 : Go.float64;
  y2 : Go.float64;
  tags : list string
}.

Definition with_dotenvPath (v : string) (f : Flags) : Flags :=
  {| countries := countries f; description := description f; dotenvPath := v;
     indexName := indexName f; json := json f; lat := lat f;
     loglevel := loglevel f; lon := lon f; text := text f;
     x1 := x1 f; x2 := x2 f; y1 := y1 f; y2 := y2 f; tags := tags f |}.

Section WithSDK.
Context `{SDKTypes}.

Record Sercices : Type := { location : option placesvc.Config }.

Definition PositionSummaryResults : Type :=
  SummaryResults.t SearchPlaceIndexForPositionSummary SearchForPositionResult.
Definition SuggestionSummaryResults : Type :=
  SummaryResults.t SearchPlaceIndexForSuggestionsSummary SearchForSuggestionsResult.
Definition TextSummaryResults : Type :=
  SummaryResults.t SearchPlaceIndexForTextSummary SearchForTextResult.

Context {marshal_describe : Marshal DescribePlaceIndexOutput}
        {marshal_list : Marshal ListPlaceIndexesOutput}
        {marshal_position : Marshal PositionSummaryResults}
        {marshal_suggestion : Marshal SuggestionSummaryResults}
        {marshal_text : Marshal TextSummaryResults}.

(** [PreRunE] of [cmdSuggestion]; [None] is the nil error. *)
Definition cmdSuggestion_PreRunE (flags : Flags) : option error :=
  if Go.ne0 (lat flags) && Go.eq0 (lon flags) then
    Some (errorString "latitude is set but longitude is not")
  else if Go.eq0 (lat flags) && Go.ne0 (lon flags) then
    Some (errorString "longitude is set but latitude is not")
  else if Go.ne0 (x1 flags)
          && (Go.eq0 (x2 flags) || Go.eq0 (y1 flags) || Go.eq0 (y2 flags)) then
    Some (errorString "x1 is set but x2 or y1 or y2 is not")
  else if Go.ne0 (x2 flags)
          && (Go.eq0 (x1 flags) || Go.eq0 (y1 flags) || Go.eq0 (y2 flags)) then
    Some (errorString "x2 is set but x1 or y1 or y2 is not")
  else if Go.ne0 (y1 flags)
          && (Go.eq0 (x1 flags) || Go.eq0 (x2 flags) || Go.eq0 (y2 flags)) then
    Some (errorString "y1 is set but x1 or x2 or y2 is not")
  else if Go.ne0 (y2 flags)
          && (Go.eq0 (x1 flags) || Go.eq0 (x2 flags) || Go.eq0 (y1 flags)) then
    Some (errorString "y2 is set but x1 or x2 or y1 is not")
  else None.

(** [PreRunE] of [cmdText]. *)
Definition cmdText_PreRunE (flags : Flags) : option error :=
  if Go.ne0 (lat flags) && Go.eq0 (lon flags) then
    Some (errorString "latitude is set but longitude is not")
  else if Go.eq0 (lat flags) && Go.ne0 (lon flags) then
    Some (errorString "longitude is set but latitude is not")
  else if Go.ne0 (x1 flags)
          && (Go.eq0 (x2 flags) || Go.eq0 (y1 flags) || Go.eq0 (y2 flags)) then
    Some (errorString "x1 is set but x2 or y1 or y2 is not")
  else if Go.ne0 (x2 flags)
          && (Go.eq0 (x1 flags) || Go.eq0 (y1 flags) || Go.eq0 (y2 flags)) then
    Some (errorString "x2 is set but x1 or y1 or y2 is not")
  else if Go.ne0 (y1 flags)
          && (Go.eq0 (x1 flags) || Go.eq0 (x2 flags) || Go.eq0 (y2 flags)) then
    Some (errorString "y1 is set but x1 or x2 or y2 is not")
  else if Go.ne0 (y2 flags)
          && (Go.eq0 (x1 flags) || Go.eq0 (x2 flags) || Go.eq0 (y1 flags)) then
    Some (errorString "y2 is set but x1 or x2 or y1 is not")
  else None.

(** [setup] reads the globals [flags] and [svc] and writes both: it returns
    their new values. *)
Definition setup (env : Env) (flags : Flags) : M (Flags * Sercices) :=
  '(flags, file) ←
    (if String.eqb (dotenvPath flags) "" then mret (flags, None)
     else
       let flags := with_dotenvPath (path_Clean env (dotenvPath flags)) flags in
       if os_Stat env (dotenvPath flags) then mret (flags, Some (dotenvPath flags))
       else log_Fatal);
  match viper_ReadInConfig env file with
  | None => log_Fatal
  | Some viper_GetString =>
      let awsProfile := viper_GetString "AwsProfile" in
      let awsRegion := viper_GetString "AwsRegion" in
      if String.eqb awsProfile "" then log_Fatal
      else if String.eqb awsRegion "" then log_Fatal
      else
        location ← placesvc.New env
          [placesvc.SetLogger logrus_New;
           placesvc.SetAWSProfile awsProfile;
           placesvc.SetAWSRegion awsRegion;
           placesvc.SetIndexName (indexName flags)];
        mret (flags, {| location := Some location |})
  end.

(** [PersistentPreRun] of [RootCmd]: it sets the level of the logger, which
    the model leaves out, and calls [setup]. *)
Definition RootCmd_PersistentPreRun (env : Env) (flags : Flags)
  : M (Flags * Sercices) :=
  setup env flags.

(** [svc.location], a nil pointer until [setup] has run. *)
Definition svc_location (svc : Sercices) : M placesvc.Config :=
  match location svc with
  | None => panic
  | Some config => mret config
  end.

(** The loop of [runCreatePlaceIndex] over [flags.tags], from the map
    [tags] built so far. *)
Fixpoint runCreatePlaceIndex_tags (rest : list string) (tags : gmap string string)
  : error + gmap string string :=
  match rest with
  | [] => inr tags
  | tag :: rest =>
      match Go.strings_Split tag "=" with
      | [part0; part1] => runCreatePlaceIndex_tags rest (<[part0 := part1]> tags)
      | _ => inl (errorString ("invalid tag: " +:+ tag))
      end
  end.

Definition runCreatePlaceIndex (flags : Flags) (svc : Sercices) : M (option error) :=
  match runCreatePlaceIndex_tags (tags flags) ∅ with
  | inl err => mret (Some err)
  | inr tags =>
      config ← svc_location svc;
      r ← placesvc.CreatePlaceIndex config (description flags) tags;
      match r with
      | inl err => mret (Some err)
      | inr ret => mret None
      end
  end.

Definition runDeletePlaceIndex (flags : Flags) (svc : Sercices) : M (option error) :=
  config ← svc_location svc;
  r ← placesvc.DeletePlaceIndex config;
  match r with
  | inl err => mret (Some err)
  | inr _ => mret None
  end.

(** After a successful call the run functions print: the JSON text when
    [flags.json] is set, which fails when the encoding does. *)
Definition present {T} `{Marshal T} (flags : Flags) (v : T) : M (option error) :=
  if json flags then
    match json_Marshal v with
    | inl err => mret (Some (marshalError err))
    | inr data => mret None
    end
  else mret None.

Definition runDescribeIndex (flags : Flags) (svc : Sercices) : M (option error) :=
  config ← svc_location svc;
  r ← placesvc.DescribePlaceIndex config (indexName flags);
  match r with
  | inl err => mret (Some err)
  | inr ret => present flags ret
  end.

Definition runListIndexes (flags : Flags) (svc : Sercices) : M (option error) :=
  config ← svc_location svc;
  r ← placesvc.ListPlaceIndexes config;
  match r with
  | inl err => mret (Some err)
  | inr ret => present flags ret
  end.

Definition runSearchPosition (flags : Flags) (svc : Sercices) : M (option error) :=
  config ← svc_location svc;
  r ← placesvc.SearchPlaceIndexForPosition config
        {| placesvc.LatLon.Latitude := lat flags;
           placesvc.LatLon.Longitude := lon flags |};
  match r with
  | inl err => mret (Some err)
  | inr ret =>
      present flags
        (SummaryResults.Build_t (SearchOutput.Summary ret) (SearchOutput.Results ret)
           : PositionSummaryResults)
  end.

(** [runSearchSuggestion] and [runSearchText] build the same search from
    the flags; its [Language] is left out of the literal, so it is nil. *)
Definition runSearchSuggestion (flags : Flags) (svc : Sercices) : M (option error) :=
  config ← svc_location svc;
  r ← placesvc.SearchPlaceIndexForSuggestions config
        {| placesvc.SuggestionSearch.Text := Some (text flags);
           placesvc.SuggestionSearch.BiasPosition :=
             Some {| placesvc.LatLon.Latitude := lat flags;
                     placesvc.LatLon.Longitude := lon flags |};
           placesvc.SuggestionSearch.FilterBBox :=
             Some {| placesvc.Box.X1 := x1 flags; placesvc.Box.Y1 := y1 flags;
                     placesvc.Box.X2 := x2 flags; placesvc.Box.Y2 := y2 flags |};
           placesvc.SuggestionSearch.FilterCountries := countries flags;
           placesvc.SuggestionSearch.Language := None |};
  match r with
  | inl err => mret (Some err)
  | inr ret =>
      present flags
        (SummaryResults.Build_t (SearchOutput.Summary ret) (SearchOutput.Results ret)
           : SuggestionSummaryResults)
  end.

Definition runSearchText (flags : Flags) (svc : Sercices) : M (option error) :=
  config ← svc_location svc;
  r ← placesvc.SearchPlaceIndexForText config
        {| placesvc.SuggestionSearch.Text := Some (text flags);
           placesvc.SuggestionSearch.BiasPosition :=
             Some {| placesvc.LatLon.Latitude := lat flags;
                     placesvc.LatLon.Longitude := lon flags |};
           placesvc.SuggestionSearch.FilterBBox :=
             Some {| placesvc.Box.X1 := x1 flags; placesvc.Box.Y1 := y1 flags;
                     placesvc.Box.X2 := x2 flags; placesvc.Box.Y2 := y2 flags |};
           placesvc.SuggestionSearch.FilterCountries := countries flags;
           placesvc.SuggestionSearch.Language := None |};
  match r with
  | inl err => mret (Some err)
  | inr ret =>
      present flags
        (SummaryResults.Build_t (SearchOutput.Summary ret) (SearchOutput.Results ret)
           : TextSummaryResults)
  end.

Definition runUpdatePlaceIndex (flags : Flags) (svc : Sercices) : M (option error) :=
  config ← svc_location svc;
  r ← placesvc.UpdatePlaceIndex config (description flags);
  match r with
  | inl err => mret (Some err)
  | inr _ => mret None
  end.

(** The [Run] of each of the eight commands: [setup], then the run
    function, whose error ends the process through [log.Fatal]. *)
Definition command_Run (runX : Flags -> Sercices -> M (option error))
    (env : Env) (flags : Flags) : M unit :=
  '(flags, svc) ← setup env flags;
  err ← runX flags svc;
  match err with
  | Some _ => log_Fatal
  | None => mret tt
  end.

Definition cmdCreate_Run : Env -> Flags -> M unit := command_Run runCreatePlaceIndex.
Definition cmdDelete_Run : Env -> Flags -> M unit := command_Run runDeletePlaceIndex.
Definition cmdDescribe_Run : Env -> Flags -> M unit := command_Run runDescribeIndex.
Definition cmdList_Run : Env -> Flags -> M unit := command_Run runListIndexes.
Definition cmdPosition_Run : Env -> Flags -> M unit := command_Run runSearchPosition.
Definition cmdSuggestion_Run : Env -> Flags -> M unit := command_Run runSearchSuggestion.
Definition cmdText_Run : Env -> Flags -> M unit := command_Run runSearchText.
Definition cmdUpdate_Run : Env -> Flags -> M unit := command_Run runUpdatePlaceIndex.

End WithSDK.

End loc.

(** ** Package main (cmd/loc/main.go) *)

Module cmd_loc.

Section WithSDK.
Context `{SDKTypes}.

(** [Execute] hands back what [loc.RootCmd.Execute], the dispatch of cobra,
    returns. *)
Definition Execute (RootCmd_Execute : M (option error)) : M (option error) :=
  RootCmd_Execute.

(** [main] declares [err], never assigns it, and drops the result of
    [Execute]; the deferred function, which runs when [main] returns, looks
    at [err]. A panic or an exit inside [Execute] ends [main] as it ends
    [Execute]: the deferred function does nothing for a nil [err]. *)
Definition main (RootCmd_Execute : M (option error)) : M unit :=
  let err : option error := None in
  _ ← Execute RootCmd_Execute;
  match err with
  | Some _ => log_Fatal
  | None => mret tt
  end.

End WithSDK.

End cmd_loc.

(** ** Vocabulary of the properties *)

(** The tag string the command line writes for the entry [k], [v]. *)
Definition tag_of (kv : string * string) : string := kv.1 +:+ "=" +:+ kv.2.

(** No ['='] in the key nor in the value. *)
Definition plain (kv : string * string) : Prop :=
  Go.count_byte "=" kv.1 = 0 /\ Go.count_byte "=" kv.2 = 0.

(** Exactly one ['='] in the tag string. *)
Definition one_separator (tag : string) : Prop := Go.count_byte "=" tag = 1.

(** Both coordinates are zero, or both are nonzero. *)
Definition both_or_neither (a b : Go.float64) : bool :=
  (Go.eq0 a && Go.eq0 b) || (Go.ne0 a && Go.ne0 b).

(** All four components are zero, or all four are nonzero. *)
Definition all_or_none (a b c d : Go.float64) : bool :=
  (Go.eq0 a && Go.eq0 b && Go.eq0 c && Go.eq0 d)
  || (Go.ne0 a && Go.ne0 b && Go.ne0 c && Go.ne0 d).

Definition latlon_consistent (flags : loc.Flags) : bool :=
  both_or_neither (loc.lat flags) (loc.lon flags).

Definition bbox_consistent (flags : loc.Flags) : bool :=
  all_or_none (loc.x1 flags) (loc.x2 flags) (loc.y1 flags) (loc.y2 flags).

(** The four components of the bounding box, in the order in which the
    validators look at them. *)
Inductive component : Type := X1 | X2 | Y1 | Y2.

Definition component_name (c : component) : string :=
  match c with X1 => "x1" | X2 => "x2" | Y1 => "y1" | Y2 => "y2" end.

Definition component_value (flags : loc.Flags) (c : component) : Go.float64 :=
  match c with
  | X1 => loc.x1 flags
  | X2 => loc.x2 flags
  | Y1 => loc.y1 flags
  | Y2 => loc.y2 flags
  end.

(** The other three components, in the order of the message of [c]. *)
Definition companions (c : component) : list component :=
  match c with
  | X1 => [X2; Y1; Y2]
  | X2 => [X1; Y1; Y2]
  | Y1 => [X1; X2; Y2]
  | Y2 => [X1; X2; Y1]
  end.

(** The first companion of [c] that is zero. *)
Definition first_missing (flags : loc.Flags) (c : component) : option component :=
  head (filter (fun d => Go.eq0 (component_value flags d) = true) (companions c)).

(** The first component that is nonzero. *)
Definition first_set (flags : loc.Flags) : option component :=
  head (filter (fun d => Go.ne0 (component_value flags d) = true) [X1; X2; Y1; Y2]).

(** The message of the check of [c]. *)
Definition bbox_message (c : component) : string :=
  match companions c with
  | [d1; d2; d3] =>
      component_name c +:+ " is set but " +:+ component_name d1 +:+ " or "
      +:+ component_name d2 +:+ " or " +:+ component_name d3 +:+ " is not"
  | _ => ""
  end.

(** The text [name] occurs in [msg]. *)
Definition mentions (msg name : string) : bool :=
  match String.index 0 name msg with Some _ => true | None => false end.

(** ** A concrete surrounding

    An SDK whose responses carry nothing, a client that answers every call,
    and a configuration file with a profile and a region. *)

Definition bare_SDK : SDKTypes :=
  {| aws_Config := unit; APIError := string; MarshalError := string;
     CreatePlaceIndexOutput := unit; DeletePlaceIndexOutput := unit;
     DescribePlaceIndexOutput := unit; ListPlaceIndexesOutput := unit;
     UpdatePlaceIndexOutput := unit;
     SearchPlaceIndexForPositionSummary := unit; SearchForPositionResult := unit;
     SearchPlaceIndexForSuggestionsSummary := unit; SearchForSuggestionsResult := unit;
     SearchPlaceIndexForTextSummary := unit; SearchForTextResult := unit |}.

Definition bare_Marshal (T : Type) : @Marshal bare_SDK T :=
  fun _ => inr ("{}" : string).

Definition bare_client : @location_Client bare_SDK :=
  {| do_CreatePlaceIndex := fun _ => inr (tt : @CreatePlaceIndexOutput bare_SDK);
     do_DeletePlaceIndex := fun _ => inr (tt : @DeletePlaceIndexOutput bare_SDK);
     do_DescribePlaceIndex := fun _ => inr (tt : @DescribePlaceIndexOutput bare_SDK);
     do_ListPlaceIndexes := fun _ => inr (tt : @ListPlaceIndexesOutput bare_SDK);
     do_SearchPlaceIndexForPosition := fun _ =>
       inr ({| SearchOutput.Summary := None; SearchOutput.Results := [] |}
            : @SearchPlaceIndexForPositionOutput bare_SDK);
     do_SearchPlaceIndexForSuggestions := fun _ =>
       inr ({| SearchOutput.Summary := None; SearchOutput.Results := [] |}
            : @SearchPlaceIndexForSuggestionsOutput bare_SDK);
     do_SearchPlaceIndexForText := fun _ =>
       inr ({| SearchOutput.Summary := None; SearchOutput.Results := [] |}
            : @SearchPlaceIndexForTextOutput bare_SDK);
     do_UpdatePlaceIndex := fun _ => inr (tt : @UpdatePlaceIndexOutput bare_SDK) |}.

Definition bare_env : @Env bare_SDK :=
  {| os_Stat := fun _ => true;
     path_Clean := fun p => p;
     viper_ReadInConfig := fun _ =>
       Some (fun key =>
               if String.eqb key "AwsProfile" then "default"
               else if String.eqb key "AwsRegion" then "us-east-1"
               else "");
     os_Getenv := fun _ => "";
     awsconfig_LoadDefaultConfig := fun _ => Some (tt : @aws_Config bare_SDK);
     location_NewFromConfig := fun _ => bare_client |}.

(** The flags of a command line that sets [--index] only. *)
Definition flags_of_index (index : string) : loc.Flags :=
  {| loc.countries := []; loc.description := ""; loc.dotenvPath := "";
     loc.indexName := index; loc.json := false; loc.lat := 0%float;
     loc.loglevel := "info"; loc.lon := 0%float; loc.text := "";
     loc.x1 := 0%float; loc.x2 := 0%float; loc.y1 := 0%float; loc.y2 := 0%float;
     loc.tags := [] |}.

(** The same, with the six coordinates of a search. *)
Definition flags_of_geo (index : string) (lat lon x1 x2 y1 y2 : Go.float64)
  : loc.Flags :=
  {| loc.countries := []; loc.description := ""; loc.dotenvPath := "";
     loc.indexName := index; loc.json := false; loc.lat := lat;
     loc.loglevel := "info"; loc.lon := lon; loc.text := "eiffel";
     loc.x1 := x1; loc.x2 := x2; loc.y1 := y1; loc.y2 := y2;
     loc.tags := [] |}.

(** The same, with the tags of a create. *)
Definition flags_of_tags (index : string) (tags : list string) : loc.Flags :=
  {| loc.countries := []; loc.description := "bar"; loc.dotenvPath := "";
     loc.indexName := index; loc.json := false; loc.lat := 0%float;
     loc.loglevel := "info"; loc.lon := 0%float; loc.text := "";
     loc.x1 := 0%float; loc.x2 := 0%float; loc.y1 := 0%float; loc.y2 := 0%float;
     loc.tags := tags |}.

(** A configuration as [New] leaves it, for the index [index]. *)
Definition bare_config (index : string) : @placesvc.Config bare_SDK :=
  {| placesvc.region := "us-east-1"; placesvc.profile := "default";
     placesvc.indexService := "Here"; placesvc.indexName := index;
     placesvc.intendedUse := "SingleUse"; placesvc.language := "en";
     placesvc.pricingPlan := "RequestBasedUsage";
     placesvc.log := Some logrus_New; placesvc.svc := Some bare_client |}.

(** ** The rules of the pre-run validators, as properties of a validator *)

(** The rule on the bias position. *)
Definition latlon_rule `{SDKTypes} (PreRunE : loc.Flags -> option error) : Prop :=
  forall flags : loc.Flags,
    (Go.ne0 (loc.lat flags) = true -> Go.eq0 (loc.lon flags) = true ->
     PreRunE flags = Some (errorString "latitude is set but longitude is not"))
    /\ (Go.eq0 (loc.lat flags) = true -> Go.ne0 (loc.lon flags) = true ->
        PreRunE flags = Some (errorString "longitude is set but latitude is not"))
    /\ (PreRunE flags = None -> latlon_consistent flags = true)
    /\ (bbox_consistent flags = true ->
        (PreRunE flags = None <-> latlon_consistent flags = true)).

(** The rule on the bounding box. *)
Definition bbox_rule `{SDKTypes} (PreRunE : loc.Flags -> option error) : Prop :=
  forall flags : loc.Flags,
    (PreRunE flags = None -> bbox_consistent flags = true)
    /\ (latlon_consistent flags = true ->
        (PreRunE flags = None <-> bbox_consistent flags = true))
    /\ (latlon_consistent flags = true ->
        forall c d : component,
          Go.ne0 (component_value flags c) = true ->
          d ∈ companions c ->
          Go.eq0 (component_value flags d) = true ->
          exists (c0 : component) (msg : string),
            first_set flags = Some c0
            /\ msg = bbox_message c0
            /\ PreRunE flags = Some (errorString msg)
            /\ mentions msg (component_name c) = true
            /\ (forall m, first_missing flags c = Some m ->
                          mentions msg (component_name m) = true)).

(** ** Vocabulary of the further properties *)

(** The options the package exports. *)
Inductive exported_option `{SDKTypes} : placesvc.Option -> Prop :=
| exported_SetAWSRegion (region : string) :
    exported_option (placesvc.SetAWSRegion region)
| exported_SetAWSProfile (profile : string) :
    exported_option (placesvc.SetAWSProfile profile)
| exported_SetIndexName (indexName : string) :
    exported_option (placesvc.SetIndexName indexName)
| exported_SetIndexService (indexService : string) :
    exported_option (placesvc.SetIndexService indexService)
| exported_SetLanguage (language : string) :
    exported_option (placesvc.SetLanguage language)
| exported_SetLogger (log : logrus_Logger) :
    exported_option (placesvc.SetLogger log).


(** The configuration file [setup] reads for the flags: the cleaned
    [--dotenv] path, or the search for [config.yaml]. *)
Definition setup_file `{SDKTypes} (env : Env) (flags : loc.Flags) : option string :=
  if String.eqb (loc.dotenvPath flags) "" then None
  else Some (path_Clean env (loc.dotenvPath flags)).

(** The client answers every call with the error [e]. *)
Definition failing `{SDKTypes} (client : location_Client) (e : APIError) : Prop :=
  (forall i, do_CreatePlaceIndex client i = inl e)
  /\ (forall i, do_DeletePlaceIndex client i = inl e)
  /\ (forall i, do_DescribePlaceIndex client i = inl e)
  /\ (forall i, do_ListPlaceIndexes client i = inl e)
  /\ (forall i, do_SearchPlaceIndexForPosition client i = inl e)
  /\ (forall i, do_SearchPlaceIndexForSuggestions client i = inl e)
  /\ (forall i, do_SearchPlaceIndexForText client i = inl e)
  /\ (forall i, do_UpdatePlaceIndex client i = inl e).

(** A client that answers every call with the error [e]. *)
Definition broken_client (e : @APIError bare_SDK) : @location_Client bare_SDK :=
  {| do_CreatePlaceIndex := fun _ => inl e;
     do_DeletePlaceIndex := fun _ => inl e;
     do_DescribePlaceIndex := fun _ => inl e;
     do_ListPlaceIndexes := fun _ => inl e;
     do_SearchPlaceIndexForPosition := fun _ => inl e;
     do_SearchPlaceIndexForSuggestions := fun _ => inl e;
     do_SearchPlaceIndexForText := fun _ => inl e;
     do_UpdatePlaceIndex := fun _ => inl e |}.

(** [bare_config], on the client [client]. *)
Definition config_on (client : @location_Client bare_SDK) (index : string)
  : @placesvc.Config bare_SDK :=
  placesvc.with_svc (Some client) (bare_config index).





(** The index commands and the search commands. *)
Definition index_commands `{SDKTypes} `{!Marshal DescribePlaceIndexOutput}
  : list (Env -> loc.Flags -> M unit) :=
  [loc.cmdCreate_Run; loc.cmdDelete_Run; loc.cmdDescribe_Run; loc.cmdUpdate_Run].

Definition search_commands `{SDKTypes}
    `{!Marshal loc.PositionSummaryResults} `{!Marshal loc.SuggestionSummaryResults}
    `{!Marshal loc.TextSummaryResults}
  : list (Env -> loc.Flags -> M unit) :=
  [loc.cmdPosition_Run; loc.cmdSuggestion_Run; loc.cmdText_Run].

(** ** Proof steps *)

(** Unfold the monad of the effects. *)
Ltac step_M :=
  unfold run, mbind, mret, M_bind, M_ret, panic, log_Fatal, call in *; simpl in *.

(** The cases of a validator: each of the six flags is zero or not. *)
Ltac by_cases flags :=
  unfold loc.cmdSuggestion_PreRunE, latlon_consistent, bbox_consistent,
    both_or_neither, all_or_none, first_set, first_missing, Go.ne0, Go.eq0 in *;
  cbn [component_value companions filter list_filter] in *;
  destruct (PrimFloat.eqb (loc.lat flags) 0);
  destruct (PrimFloat.eqb (loc.lon flags) 0);
  destruct (PrimFloat.eqb (loc.x1 flags) 0);
  destruct (PrimFloat.eqb (loc.x2 flags) 0);
  destruct (PrimFloat.eqb (loc.y1 flags) 0);
  destruct (PrimFloat.eqb (loc.y2 flags) 0);
  simpl in *.

(** The cases of [defaults]: each of the five fields is empty or not. *)
Ltac defaults_cases c0 :=
  unfold placesvc.defaults;
  destruct (String.eqb_spec (placesvc.region c0) ""); simpl;
  destruct (String.eqb_spec (placesvc.indexService c0) ""); simpl;
  destruct (String.eqb_spec (placesvc.intendedUse c0) ""); simpl;
  destruct (String.eqb_spec (placesvc.language c0) ""); simpl;
  destruct (String.eqb_spec (placesvc.pricingPlan c0) ""); simpl.

(** * Properties *)

(** ** [strings.Split] on a one-byte separator *)

Lemma length_strings_Split (s : string) (c : ascii) :
  length (Go.strings_Split s c) = S (Go.count_byte c s).
Proof.
  induction s as [|a s IH]; simpl; [done|].
  destruct (Ascii.eqb a c); simpl; [by rewrite IH|].
  destruct (Go.strings_Split s c); simpl in *; congruence.
Qed.

Lemma strings_Split_no_sep (s : string) (c : ascii) :
  Go.count_byte c s = 0 -> Go.strings_Split s c = [s].
Proof.
  induction s as [|a s IH]; simpl; [done|].
  destruct (Ascii.eqb a c); simpl; [done|].
  intros Hs. by rewrite IH.
Qed.

Lemma strings_Split_one_sep (k v : string) (c : ascii) :
  Go.count_byte c k = 0 -> Go.count_byte c v = 0 ->
  Go.strings_Split (k +:+ String c v) c = [k; v].
Proof.
  intros Hk Hv. induction k as [|a k IH]; simpl in *.
  - rewrite Ascii.eqb_refl. by rewrite strings_Split_no_sep.
  - destruct (Ascii.eqb a c); simpl in *; [done|]. by rewrite IH.
Qed.

Lemma strings_Split_two_pieces (s k v : string) (c : ascii) :
  Go.strings_Split s c = [k; v] ->
  s = k +:+ String c v /\ Go.count_byte c k = 0 /\ Go.count_byte c v = 0.
Proof.
  revert k. induction s as [|a s IH]; intros k; simpl; [done|].
  destruct (Ascii.eqb a c) eqn:Hac.
  - apply Ascii.eqb_eq in Hac as ->. intros [= <- Hs].
    assert (Hlen := length_strings_Split s c). rewrite Hs in Hlen.
    simpl in Hlen. injection Hlen as Hlen.
    rewrite strings_Split_no_sep in Hs by done. by injection Hs as ->.
  - destruct (Go.strings_Split s c) as [|p ps] eqn:Hs; [done|].
    intros [= <- ->]. destruct (IH p eq_refl) as (-> & Hp & Hv).
    simpl. by rewrite Hac.
Qed.

Lemma count_byte_app (c : ascii) (s t : string) :
  Go.count_byte c (s +:+ t) = Go.count_byte c s + Go.count_byte c t.
Proof. induction s as [|a s IH]; simpl; [done|]. rewrite IH. lia. Qed.

(** A string has exactly one [c] exactly when it is [k], the byte [c],
    then [v], for [k] and [v] without [c]. *)
Lemma count_byte_one (c : ascii) (s : string) :
  Go.count_byte c s = 1 <->
  exists k v, s = k +:+ String c v /\ Go.count_byte c k = 0 /\ Go.count_byte c v = 0.
Proof.
  split.
  - intros Hs. assert (Hlen := length_strings_Split s c). rewrite Hs in Hlen.
    destruct (Go.strings_Split s c) as [|k [|v [|? ?]]] eqn:Hsplit; try done.
    exists k, v. by apply strings_Split_two_pieces.
  - intros (k & v & -> & Hk & Hv). rewrite count_byte_app. simpl.
    rewrite Ascii.eqb_refl. lia.
Qed.

(** ** The tag loop of [runCreatePlaceIndex] *)

Section Tags.
Context `{SDKTypes}.

Lemma tags_loop_plain (kvs : list (string * string)) (tags : gmap string string) :
  Forall plain kvs ->
  loc.runCreatePlaceIndex_tags (tag_of <$> kvs) tags
  = inr (foldl (fun m kv => <[kv.1 := kv.2]> m) tags kvs).
Proof.
  intros Hkvs. revert tags.
  induction Hkvs as [|[k v] kvs [Hk Hv] _ IH]; intros tags; simpl; [done|].
  unfold tag_of at 1. simpl in *.
  change ("=" +:+ v) with (String "=" v).
  rewrite strings_Split_one_sep by done. apply IH.
Qed.

Lemma tags_loop_good_prefix (good rest : list string) (tags : gmap string string) :
  Forall one_separator good ->
  exists tags',
    loc.runCreatePlaceIndex_tags (good ++ rest) tags
    = loc.runCreatePlaceIndex_tags rest tags'.
Proof.
  intros Hgood. revert tags.
  induction Hgood as [|tag good Htag _ IH]; intros tags; simpl; [by exists tags|].
  apply count_byte_one in Htag as (k & v & -> & Hk & Hv).
  rewrite strings_Split_one_sep by done. apply IH.
Qed.

Lemma tags_loop_bad (bad : string) (rest : list string) (tags : gmap string string) :
  ~ one_separator bad ->
  loc.runCreatePlaceIndex_tags (bad :: rest) tags
  = inl (errorString ("invalid tag: " +:+ bad)).
Proof.
  intros Hbad. simpl.
  assert (Hlen := length_strings_Split bad "=").
  destruct (Go.strings_Split bad "=") as [|k [|v [|? ?]]] eqn:Hsplit; try done.
  destruct Hbad. apply count_byte_one. exists k, v.
  by apply strings_Split_two_pieces.
Qed.

Lemma foldl_insert_lookup (kvs : list (string * string)) (k v : string) :
  NoDup kvs.*1 -> (k, v) ∈ kvs ->
  foldl (fun m kv => <[kv.1 := kv.2]> m) (∅ : gmap string string) kvs !! k = Some v.
Proof.
  induction kvs as [|[k' v'] kvs IH] using rev_ind; [by intros _ ?%elem_of_nil|].
  rewrite fmap_app, foldl_app. simpl.
  intros [Hnd [Hfresh _]]%NoDup_app [Hin|Hin%list_elem_of_singleton]%elem_of_app.
  - rewrite lookup_insert_ne; [by apply IH|].
    intros <-. apply (Hfresh k'); [|set_solver].
    apply list_elem_of_fmap. by exists (k', v).
  - injection Hin as -> ->. by rewrite lookup_insert_eq.
Qed.

End Tags.

(** ** The pre-run validators *)

Section Validators.
Context `{SDKTypes}.

Lemma cmdText_PreRunE_eq (flags : loc.Flags) :
  loc.cmdText_PreRunE flags = loc.cmdSuggestion_PreRunE flags.
Proof. reflexivity. Qed.

(** The validator accepts exactly when each group of flags is given whole
    or not at all. *)
Lemma PreRunE_accepts (flags : loc.Flags) :
  loc.cmdSuggestion_PreRunE flags = None <->
  latlon_consistent flags = true /\ bbox_consistent flags = true.
Proof. by_cases flags; split; (done || by intros []). Qed.

(** C2. For every pair (lat, lon), the pre-run validators of the
    suggestion and of the text command reject with "latitude is set but
    longitude is not" when lat is nonzero and lon is zero, reject with
    "longitude is set but latitude is not" when lat is zero and lon is
    nonzero, and otherwise let the pair pass: they accept only when both
    are zero or both are nonzero, and, the bounding box being given whole
    or not at all, they accept exactly then. *)
Theorem latlon_validation :
  latlon_rule loc.cmdSuggestion_PreRunE /\ latlon_rule loc.cmdText_PreRunE.
Proof.
  split; intros flags; [|rewrite cmdText_PreRunE_eq];
    repeat split; by_cases flags; done.
Qed.

(** C3. For every quadruple (x1, x2, y1, y2), the pre-run validators of the
    suggestion and of the text command accept only when all four are zero
    or all four are nonzero, and, the bias position having passed, exactly
    then; when a component c is nonzero and another is zero they reject
    with the message of the first nonzero component, and that message names
    c and the first missing companion of c. *)
Theorem bbox_validation :
  bbox_rule loc.cmdSuggestion_PreRunE /\ bbox_rule loc.cmdText_PreRunE.
Proof.
  assert (Hsuggestion : bbox_rule loc.cmdSuggestion_PreRunE).
  { intros flags. split; [|split].
    - by intros [_ ?]%PreRunE_accepts.
    - intros Hll. rewrite PreRunE_accepts. tauto.
    - intros Hll c d Hc Hd Hzero.
      destruct c, d;
        try (by repeat (apply elem_of_cons in Hd as [Hd|Hd]; try done);
             apply elem_of_nil in Hd);
        by_cases flags; try done;
        (eexists _, _; split; [reflexivity|]; split; [reflexivity|];
         split; [reflexivity|]; split; [reflexivity|];
         intros m [= <-]; reflexivity). }
  split; [exact Hsuggestion|].
  intros flags. rewrite cmdText_PreRunE_eq. apply Hsuggestion.
Qed.

End Validators.

(** The scenario [suggestion --index foo --text eiffel --lat 10.0]. *)
Lemma latlon_validation_witness :
  Go.ne0 10%float = true /\ Go.eq0 0%float = true
  /\ @loc.cmdSuggestion_PreRunE bare_SDK (flags_of_geo "foo" 10 0 0 0 0 0)
     = Some (errorString "latitude is set but longitude is not").
Proof.
  split; [reflexivity|]. split; [reflexivity|].
  apply (proj1 (proj1 (@latlon_validation bare_SDK) (flags_of_geo "foo" 10 0 0 0 0 0)));
    reflexivity.
Defined.

(** [--x1 1 --y2 2]: the message is the one of [x1], which names [y2] and
    [x2], the first missing companion of [y2]. *)
Lemma bbox_validation_witness :
  exists c0 msg,
    first_set (flags_of_geo "foo" 0 0 1 0 0 2) = Some c0
    /\ msg = bbox_message c0
    /\ @loc.cmdText_PreRunE bare_SDK (flags_of_geo "foo" 0 0 1 0 0 2)
       = Some (errorString msg)
    /\ mentions msg (component_name Y2) = true
    /\ (forall m, first_missing (flags_of_geo "foo" 0 0 1 0 0 2) Y2 = Some m ->
                  mentions msg (component_name m) = true).
Proof.
  apply (proj2 (proj2 (proj2 (@bbox_validation bare_SDK) (flags_of_geo "foo" 0 0 1 0 0 2))))
    with (d := X2).
  - reflexivity.
  - reflexivity.
  - apply elem_of_cons. right. apply elem_of_cons. by left.
  - reflexivity.
Defined.

(** ** The requests the service builds *)

Section Requests.
Context `{SDKTypes}.
Context {marshal_describe : Marshal DescribePlaceIndexOutput}
        {marshal_list : Marshal ListPlaceIndexesOutput}
        {marshal_position : Marshal loc.PositionSummaryResults}
        {marshal_suggestion : Marshal loc.SuggestionSummaryResults}
        {marshal_text : Marshal loc.TextSummaryResults}.

Lemma on_svc_Some {I O} (config : placesvc.Config) (client : location_Client)
    (wrap : I -> Request) (h : location_Client -> I -> APIError + O) (input : I)
    (tr : list Request) :
  placesvc.svc config = Some client ->
  placesvc.on_svc config wrap h input tr
  = (Returned (answer (h client input)), tr ++ [wrap input]).
Proof. intros Hsvc. unfold placesvc.on_svc. by rewrite Hsvc. Qed.

Lemma present_trace {T} `{Marshal T} (flags : loc.Flags) (v : T) (tr : list Request) :
  snd (loc.present flags v tr) = tr.
Proof.
  unfold loc.present. destruct (loc.json flags); [|done].
  by destruct (json_Marshal v).
Qed.

Lemma sanity_empty (config : placesvc.Config) :
  placesvc.indexName config = "" ->
  placesvc.sanity config = Some (errorString "indexName not set").
Proof. intros Hname. unfold placesvc.sanity. by rewrite Hname. Qed.

Lemma sanity_nonempty (config : placesvc.Config) :
  placesvc.indexName config <> "" -> placesvc.sanity config = None.
Proof.
  intros Hname. unfold placesvc.sanity.
  by destruct (String.eqb_spec (placesvc.indexName config) "").
Qed.

Lemma answer_not_errorString {O} (r : APIError + O) (text : string) :
  answer r <> inl (errorString text).
Proof. by destruct r. Qed.

(** *** The requests of the three searches, from any trace *)

Section Searches.
Variables (config : placesvc.Config) (client : location_Client).
Hypothesis Hsvc : placesvc.svc config = Some client.
Variables (svc : loc.Sercices) (flags : loc.Flags) (tr : list Request).
Hypothesis Hlocation : loc.location svc = Some config.

Lemma runSearchPosition_trace :
  snd (loc.runSearchPosition flags svc tr)
  = tr ++ [ReqSearchPlaceIndexForPosition
             {| SearchPlaceIndexForPositionInput.IndexName :=
                  Some (placesvc.indexName config);
                SearchPlaceIndexForPositionInput.Language :=
                  Some (placesvc.language config);
                SearchPlaceIndexForPositionInput.Position :=
                  [loc.lon flags; loc.lat flags] |}].
Proof using Hsvc Hlocation.
  unfold loc.runSearchPosition, loc.svc_location,
    placesvc.SearchPlaceIndexForPosition. rewrite Hlocation. step_M.
  rewrite (on_svc_Some _ client) by done.
  destruct (answer _); [done|]. by rewrite present_trace.
Qed.

Lemma runSearchSuggestion_trace :
  snd (loc.runSearchSuggestion flags svc tr)
  = tr ++ [ReqSearchPlaceIndexForSuggestions
             {| SearchPlaceIndexForSuggestionsInput.IndexName :=
                  Some (placesvc.indexName config);
                SearchPlaceIndexForSuggestionsInput.Text := Some (loc.text flags);
                SearchPlaceIndexForSuggestionsInput.BiasPosition := [];
                SearchPlaceIndexForSuggestionsInput.FilterBBox := [];
                SearchPlaceIndexForSuggestionsInput.FilterCountries :=
                  loc.countries flags;
                SearchPlaceIndexForSuggestionsInput.Language :=
                  Some (placesvc.language config) |}].
Proof using Hsvc Hlocation.
  unfold loc.runSearchSuggestion, loc.svc_location,
    placesvc.SearchPlaceIndexForSuggestions. rewrite Hlocation. step_M.
  rewrite (on_svc_Some _ client) by done.
  destruct (answer _); [done|]. by rewrite present_trace.
Qed.

Lemma runSearchText_trace :
  snd (loc.runSearchText flags svc tr)
  = tr ++ [ReqSearchPlaceIndexForText
             {| SearchPlaceIndexForTextInput.IndexName :=
                  Some (placesvc.indexName config);
                SearchPlaceIndexForTextInput.Text := Some (loc.text flags);
                SearchPlaceIndexForTextInput.BiasPosition := [];
                SearchPlaceIndexForTextInput.FilterBBox := [];
                SearchPlaceIndexForTextInput.FilterCountries := loc.countries flags;
                SearchPlaceIndexForTextInput.Language :=
                  Some (placesvc.language config) |}].
Proof using Hsvc Hlocation.
  unfold loc.runSearchText, loc.svc_location,
    placesvc.SearchPlaceIndexForText. rewrite Hlocation. step_M.
  rewrite (on_svc_Some _ client) by done.
  destruct (answer _); [done|]. by rewrite present_trace.
Qed.

(** *** The requests of create and update *)

Lemma runCreatePlaceIndex_trace :
  snd (loc.runCreatePlaceIndex flags svc tr) = tr
  \/ exists tags : gmap string string,
      loc.runCreatePlaceIndex_tags (loc.tags flags) ∅ = inr tags
      /\ placesvc.indexName config <> ""
      /\ snd (loc.runCreatePlaceIndex flags svc tr)
         = tr ++ [ReqCreatePlaceIndex
                    {| CreatePlaceIndexInput.DataSource :=
                         Some (placesvc.indexService config);
                       CreatePlaceIndexInput.DataSourceConfiguration :=
                         Some {| DataSourceConfiguration.IntendedUse :=
                                   placesvc.intendedUse config |};
                       CreatePlaceIndexInput.Description :=
                         Some (loc.description flags);
                       CreatePlaceIndexInput.IndexName :=
                         Some (placesvc.indexName config);
                       CreatePlaceIndexInput.PricingPlan :=
                         placesvc.pricingPlan config;
                       CreatePlaceIndexInput.Tags := tags |}].
Proof using Hsvc Hlocation.
  unfold loc.runCreatePlaceIndex.
  destruct (loc.runCreatePlaceIndex_tags _ _) as [err|tags]; [by left|].
  unfold loc.svc_location, placesvc.CreatePlaceIndex, placesvc.sanity.
  rewrite Hlocation. step_M.
  destruct (String.eqb_spec (placesvc.indexName config) ""); [by left|].
  right. exists tags. rewrite (on_svc_Some _ client) by done.
  by destruct (answer _).
Qed.

Lemma runUpdatePlaceIndex_trace :
  snd (loc.runUpdatePlaceIndex flags svc tr) = tr
  \/ placesvc.indexName config <> ""
     /\ snd (loc.runUpdatePlaceIndex flags svc tr)
        = tr ++ [ReqUpdatePlaceIndex
                   {| UpdatePlaceIndexInput.IndexName :=
                        Some (placesvc.indexName config);
                      UpdatePlaceIndexInput.DataSourceConfiguration :=
                        Some {| DataSourceConfiguration.IntendedUse :=
                                  placesvc.intendedUse config |};
                      UpdatePlaceIndexInput.Description :=
                        Some (loc.description flags);
                      UpdatePlaceIndexInput.PricingPlan :=
                        placesvc.pricingPlan config |}].
Proof using Hsvc Hlocation.
  unfold loc.runUpdatePlaceIndex, loc.svc_location, placesvc.UpdatePlaceIndex,
    placesvc.sanity.
  rewrite Hlocation. step_M.
  destruct (String.eqb_spec (placesvc.indexName config) ""); [by left|].
  right. split; [done|]. rewrite (on_svc_Some _ client) by done.
  by destruct (answer _).
Qed.

End Searches.

(** *** [setup] *)

(** [setup] makes no call; when it returns, the flags are the ones it was
    given, but for the path of the configuration file, and the service
    holds a client, the index name of the flags, and the values [New]
    fills in. *)
Lemma setup_spec (env : Env) (flags : loc.Flags) (tr : list Request) :
  match loc.setup env flags tr with
  | (Returned (flags', svc), tr') =>
      tr' = tr
      /\ flags' = loc.with_dotenvPath (loc.dotenvPath flags') flags
      /\ exists config client,
          loc.location svc = Some config
          /\ placesvc.svc config = Some client
          /\ placesvc.indexName config = loc.indexName flags
          /\ placesvc.indexService config = "Here"
          /\ placesvc.intendedUse config = "SingleUse"
          /\ placesvc.language config = "en"
          /\ placesvc.pricingPlan config = "RequestBasedUsage"
  | (_, tr') => tr' = tr
  end.
Proof.
  unfold loc.setup. step_M.
  set (pre := if String.eqb (loc.dotenvPath flags) "" then _ else _).
  assert (Hpre : match pre tr with
                 | (Returned (flags', _), tr') =>
                     tr' = tr
                     /\ flags' = loc.with_dotenvPath (loc.dotenvPath flags') flags
                 | (_, tr') => tr' = tr
                 end).
  { subst pre. destruct (String.eqb (loc.dotenvPath flags) "").
    - split; [done|]. by destruct flags.
    - by destruct (os_Stat env _). }
  destruct (pre tr) as [[[flags' file]| |] tr']; [|done..].
  destruct Hpre as [-> Hflags].
  destruct (viper_ReadInConfig env file) as [get|]; [|done].
  destruct (String.eqb (get "AwsProfile") ""); [done|].
  destruct (String.eqb (get "AwsRegion") "") eqn:Hregion; [done|].
  unfold placesvc.New, placesvc.defaults. simpl. rewrite Hregion. simpl.
  destruct (awsconfig_LoadDefaultConfig env _); [|done].
  simpl. split; [done|]. split; [done|].
  eexists _, _. repeat split. rewrite Hflags. reflexivity.
Qed.

(** The calls of a command are the ones of its run function. *)
Lemma command_Run_trace (runX : loc.Flags -> loc.Sercices -> M (option error))
    (env : Env) (flags : loc.Flags) (tr : list Request) :
  snd (loc.command_Run runX env flags tr)
  = match loc.setup env flags tr with
    | (Returned (flags', svc), tr') => snd (runX flags' svc tr')
    | (_, tr') => tr'
    end.
Proof.
  unfold loc.command_Run. step_M.
  destruct (loc.setup env flags tr) as [[[flags' svc]| |] tr']; [|done..].
  destruct (runX flags' svc tr') as [[[err|]| |] tr'']; done.
Qed.

End Requests.

(** ** The search requests *)

Section SearchRequests.
Context `{SDKTypes}.
Context {marshal_position : Marshal loc.PositionSummaryResults}
        {marshal_suggestion : Marshal loc.SuggestionSummaryResults}
        {marshal_text : Marshal loc.TextSummaryResults}.

(** C1. For every search handed to the suggestion or to the text search,
    and for every value of the flags lat, lon, x1, x2, y1, y2 of the two
    commands, the one request issued to the client has no bias position and
    no bounding box: it carries the index name, the free text, the list of
    countries and the language, and nothing else. *)
Theorem search_requests_carry_no_geo_filter
    (config : placesvc.Config) (client : location_Client) :
  placesvc.svc config = Some client ->
  (forall search : placesvc.SuggestionSearch.t,
      snd (run (placesvc.SearchPlaceIndexForSuggestions config search))
      = [ReqSearchPlaceIndexForSuggestions
           {| SearchPlaceIndexForSuggestionsInput.IndexName :=
                Some (placesvc.indexName config);
              SearchPlaceIndexForSuggestionsInput.Text :=
                placesvc.SuggestionSearch.Text search;
              SearchPlaceIndexForSuggestionsInput.BiasPosition := [];
              SearchPlaceIndexForSuggestionsInput.FilterBBox := [];
              SearchPlaceIndexForSuggestionsInput.FilterCountries :=
                placesvc.SuggestionSearch.FilterCountries search;
              SearchPlaceIndexForSuggestionsInput.Language :=
                Some (placesvc.language config) |}])
  /\ (forall search : placesvc.SuggestionSearch.t,
      snd (run (placesvc.SearchPlaceIndexForText config search))
      = [ReqSearchPlaceIndexForText
           {| SearchPlaceIndexForTextInput.IndexName :=
                Some (placesvc.indexName config);
              SearchPlaceIndexForTextInput.Text :=
                placesvc.SuggestionSearch.Text search;
              SearchPlaceIndexForTextInput.BiasPosition := [];
              SearchPlaceIndexForTextInput.FilterBBox := [];
              SearchPlaceIndexForTextInput.FilterCountries :=
                placesvc.SuggestionSearch.FilterCountries search;
              SearchPlaceIndexForTextInput.Language :=
                Some (placesvc.language config) |}])
  /\ (forall flags : loc.Flags,
      snd (run (loc.runSearchSuggestion flags {| loc.location := Some config |}))
      = [ReqSearchPlaceIndexForSuggestions
           {| SearchPlaceIndexForSuggestionsInput.IndexName :=
                Some (placesvc.indexName config);
              SearchPlaceIndexForSuggestionsInput.Text := Some (loc.text flags);
              SearchPlaceIndexForSuggestionsInput.BiasPosition := [];
              SearchPlaceIndexForSuggestionsInput.FilterBBox := [];
              SearchPlaceIndexForSuggestionsInput.FilterCountries :=
                loc.countries flags;
              SearchPlaceIndexForSuggestionsInput.Language :=
                Some (placesvc.language config) |}])
  /\ (forall flags : loc.Flags,
      snd (run (loc.runSearchText flags {| loc.location := Some config |}))
      = [ReqSearchPlaceIndexForText
           {| SearchPlaceIndexForTextInput.IndexName :=
                Some (placesvc.indexName config);
              SearchPlaceIndexForTextInput.Text := Some (loc.text flags);
              SearchPlaceIndexForTextInput.BiasPosition := [];
              SearchPlaceIndexForTextInput.FilterBBox := [];
              SearchPlaceIndexForTextInput.FilterCountries := loc.countries flags;
              SearchPlaceIndexForTextInput.Language :=
                Some (placesvc.language config) |}]).
Proof.
  intros Hsvc. repeat split.
  - intros search. unfold run, placesvc.SearchPlaceIndexForSuggestions.
    by rewrite (on_svc_Some _ client).
  - intros search. unfold run, placesvc.SearchPlaceIndexForText.
    by rewrite (on_svc_Some _ client).
  - intros flags. unfold run. by rewrite (runSearchSuggestion_trace config client).
  - intros flags. unfold run. by rewrite (runSearchText_trace config client).
Qed.

(** C6. For every latitude and longitude handed to the position search,
    the position of the request is the pair longitude, latitude, in this
    order; so it is for the flags lat and lon of the position command. *)
Theorem position_is_longitude_first
    (config : placesvc.Config) (client : location_Client) :
  placesvc.svc config = Some client ->
  (forall latLon : placesvc.LatLon.t,
      snd (run (placesvc.SearchPlaceIndexForPosition config latLon))
      = [ReqSearchPlaceIndexForPosition
           {| SearchPlaceIndexForPositionInput.IndexName :=
                Some (placesvc.indexName config);
              SearchPlaceIndexForPositionInput.Language :=
                Some (placesvc.language config);
              SearchPlaceIndexForPositionInput.Position :=
                [placesvc.LatLon.Longitude latLon; placesvc.LatLon.Latitude latLon] |}])
  /\ (forall flags : loc.Flags,
      snd (run (loc.runSearchPosition flags {| loc.location := Some config |}))
      = [ReqSearchPlaceIndexForPosition
           {| SearchPlaceIndexForPositionInput.IndexName :=
                Some (placesvc.indexName config);
              SearchPlaceIndexForPositionInput.Language :=
                Some (placesvc.language config);
              SearchPlaceIndexForPositionInput.Position :=
                [loc.lon flags; loc.lat flags] |}]).
Proof.
  intros Hsvc. split.
  - intros latLon. unfold run, placesvc.SearchPlaceIndexForPosition.
    by rewrite (on_svc_Some _ client).
  - intros flags. unfold run. by rewrite (runSearchPosition_trace config client).
Qed.

End SearchRequests.

(** ** The index name *)

Section IndexName.
Context `{SDKTypes}.
Context {marshal_describe : Marshal DescribePlaceIndexOutput}
        {marshal_list : Marshal ListPlaceIndexesOutput}.

Lemma DescribePlaceIndex_default (config : placesvc.Config) :
  placesvc.DescribePlaceIndex config ""
  = match placesvc.sanity config with
    | Some err => mret (inl err)
    | None =>
        placesvc.on_svc config ReqDescribePlaceIndex do_DescribePlaceIndex
          {| DescribePlaceIndexInput.IndexName := Some (placesvc.indexName config) |}
    end.
Proof. reflexivity. Qed.

Lemma DescribePlaceIndex_named (config : placesvc.Config) (name : string) :
  name <> "" ->
  placesvc.DescribePlaceIndex config name
  = placesvc.on_svc config ReqDescribePlaceIndex do_DescribePlaceIndex
      {| DescribePlaceIndexInput.IndexName := Some name |}.
Proof.
  intros Hname. unfold placesvc.DescribePlaceIndex.
  by destruct (String.eqb_spec name "").
Qed.

(** C7. Describe with an empty index name builds its request with the
    index name of the configuration, and fails with the error of the
    configuration check, "indexName not set", exactly when that one is
    empty too, making no call then; with a nonempty index name it builds
    its request with that name and makes no configuration check. *)
Theorem describe_index_name
    (config : placesvc.Config) (client : location_Client) (name : string) :
  placesvc.svc config = Some client ->
  (name = "" -> placesvc.indexName config = "" ->
   run (placesvc.DescribePlaceIndex config name)
   = (Returned (inl (errorString "indexName not set")), []))
  /\ (name = "" -> placesvc.indexName config <> "" ->
      run (placesvc.DescribePlaceIndex config name)
      = (Returned
           (answer (do_DescribePlaceIndex client
                      {| DescribePlaceIndexInput.IndexName :=
                           Some (placesvc.indexName config) |})),
         [ReqDescribePlaceIndex
            {| DescribePlaceIndexInput.IndexName :=
                 Some (placesvc.indexName config) |}]))
  /\ (name = "" ->
      (fst (run (placesvc.DescribePlaceIndex config name))
       = Returned (inl (errorString "indexName not set"))
       <-> placesvc.indexName config = ""))
  /\ (name <> "" ->
      run (placesvc.DescribePlaceIndex config name)
      = (Returned
           (answer (do_DescribePlaceIndex client
                      {| DescribePlaceIndexInput.IndexName := Some name |})),
         [ReqDescribePlaceIndex
            {| DescribePlaceIndexInput.IndexName := Some name |}])).
Proof.
  intros Hsvc. unfold run. repeat split.
  - intros -> Hname. by rewrite DescribePlaceIndex_default, sanity_empty.
  - intros -> Hname. rewrite DescribePlaceIndex_default, sanity_nonempty by done.
    by rewrite (on_svc_Some _ client).
  - subst name. rewrite DescribePlaceIndex_default.
    destruct (String.eqb_spec (placesvc.indexName config) "") as [|Hne]; [done|].
    rewrite sanity_nonempty, (on_svc_Some _ client) by done. simpl.
    intros [= Habs]. by apply answer_not_errorString in Habs.
  - subst name. intros Hname. by rewrite DescribePlaceIndex_default, sanity_empty.
  - intros Hname. rewrite DescribePlaceIndex_named by done.
    by rewrite (on_svc_Some _ client).
Qed.

(** A command whose run function fails ends through [log.Fatal], or in
    [setup], and makes the calls of its run function only. *)
Lemma command_Run_fails (runX : loc.Flags -> loc.Sercices -> M (option error))
    (env : Env) (flags : loc.Flags) :
  (forall flags' svc config,
      flags' = loc.with_dotenvPath (loc.dotenvPath flags') flags ->
      loc.location svc = Some config ->
      placesvc.indexName config = loc.indexName flags ->
      exists err, runX flags' svc [] = (Returned (Some err), [])) ->
  snd (run (loc.command_Run runX env flags)) = []
  /\ fst (run (loc.command_Run runX env flags)) <> Returned ().
Proof.
  intros HrunX. unfold run, loc.command_Run. step_M.
  pose proof (setup_spec env flags []) as Hsetup.
  destruct (loc.setup env flags []) as [[[flags' svc]| |] tr']; [|by subst..].
  destruct Hsetup as (-> & Hflags & config & client & Hlocation & _ & Hname & _).
  destruct (HrunX flags' svc config Hflags Hlocation Hname) as [err ->]. done.
Qed.

(** With an empty index name in the configuration the run functions of
    create, delete, update and describe make no call and return an error. *)
Lemma run_functions_check_index (config : placesvc.Config)
    (flags : loc.Flags) (svc : loc.Sercices) :
  placesvc.indexName config = "" ->
  loc.location svc = Some config ->
  (exists err, run (loc.runCreatePlaceIndex flags svc) = (Returned (Some err), []))
  /\ (forall tags,
      loc.runCreatePlaceIndex_tags (loc.tags flags) ∅ = inr tags ->
      run (loc.runCreatePlaceIndex flags svc)
      = (Returned (Some (errorString "indexName not set")), []))
  /\ run (loc.runDeletePlaceIndex flags svc)
     = (Returned (Some (errorString "indexName not set")), [])
  /\ run (loc.runUpdatePlaceIndex flags svc)
     = (Returned (Some (errorString "indexName not set")), [])
  /\ (loc.indexName flags = "" ->
      run (loc.runDescribeIndex flags svc)
      = (Returned (Some (errorString "indexName not set")), [])).
Proof.
  intros Hname Hlocation.
  pose proof (sanity_empty config Hname) as Hsanity.
  unfold run. split; [|split; [|split; [|split]]].
  - unfold loc.runCreatePlaceIndex.
    destruct (loc.runCreatePlaceIndex_tags _ _) as [err|tags]; [by exists err|].
    unfold loc.svc_location, placesvc.CreatePlaceIndex.
    rewrite Hlocation. step_M. rewrite Hsanity. by eexists.
  - intros tags Htags. unfold loc.runCreatePlaceIndex. rewrite Htags.
    unfold loc.svc_location, placesvc.CreatePlaceIndex.
    rewrite Hlocation. step_M. by rewrite Hsanity.
  - unfold loc.runDeletePlaceIndex, loc.svc_location, placesvc.DeletePlaceIndex.
    rewrite Hlocation. step_M. by rewrite Hsanity.
  - unfold loc.runUpdatePlaceIndex, loc.svc_location, placesvc.UpdatePlaceIndex.
    rewrite Hlocation. step_M. by rewrite Hsanity.
  - intros Hflag. unfold loc.runDescribeIndex, loc.svc_location.
    rewrite Hlocation, Hflag. step_M.
    by rewrite DescribePlaceIndex_default, Hsanity.
Qed.

(** C5, as the code has it. With an empty index name, create, delete and
    update, and describe when no name is given to it, fail with the error
    "indexName not set" of the configuration check and make no call, unless
    a malformed tag fails create first; their four commands then end
    without a call and without success. List takes no index name: it makes
    its call whatever the index name is. *)
Theorem index_name_is_checked :
  (forall config : placesvc.Config,
      placesvc.indexName config = "" ->
      (forall description tags,
          run (placesvc.CreatePlaceIndex config description tags)
          = (Returned (inl (errorString "indexName not set")), []))
      /\ run (placesvc.DeletePlaceIndex config)
         = (Returned (inl (errorString "indexName not set")), [])
      /\ (forall description,
          run (placesvc.UpdatePlaceIndex config description)
          = (Returned (inl (errorString "indexName not set")), []))
      /\ run (placesvc.DescribePlaceIndex config "")
         = (Returned (inl (errorString "indexName not set")), [])
      /\ (forall flags svc,
          loc.location svc = Some config ->
          (exists err, run (loc.runCreatePlaceIndex flags svc) = (Returned (Some err), []))
          /\ (forall tags,
              loc.runCreatePlaceIndex_tags (loc.tags flags) ∅ = inr tags ->
              run (loc.runCreatePlaceIndex flags svc)
              = (Returned (Some (errorString "indexName not set")), []))
          /\ run (loc.runDeletePlaceIndex flags svc)
             = (Returned (Some (errorString "indexName not set")), [])
          /\ run (loc.runUpdatePlaceIndex flags svc)
             = (Returned (Some (errorString "indexName not set")), [])
          /\ (loc.indexName flags = "" ->
              run (loc.runDescribeIndex flags svc)
              = (Returned (Some (errorString "indexName not set")), []))))
  /\ (forall (env : Env) (flags : loc.Flags),
      loc.indexName flags = "" ->
      Forall (fun command : Env -> loc.Flags -> M unit =>
                snd (run (command env flags)) = []
                /\ fst (run (command env flags)) <> Returned ())
        [loc.cmdCreate_Run; loc.cmdDelete_Run; loc.cmdUpdate_Run; loc.cmdDescribe_Run])
  /\ (forall (config : placesvc.Config) (client : location_Client),
      placesvc.svc config = Some client ->
      run (placesvc.ListPlaceIndexes config)
      = (Returned (answer (do_ListPlaceIndexes client ListPlaceIndexesInput.Build_t)),
         [ReqListPlaceIndexes ListPlaceIndexesInput.Build_t])).
Proof.
  split; [|split].
  - intros config Hname. pose proof (sanity_empty config Hname) as Hsanity.
    unfold run. split; [|split; [|split; [|split]]].
    + intros description tags. unfold placesvc.CreatePlaceIndex. by rewrite Hsanity.
    + unfold placesvc.DeletePlaceIndex. by rewrite Hsanity.
    + intros description. unfold placesvc.UpdatePlaceIndex. by rewrite Hsanity.
    + by rewrite DescribePlaceIndex_default, Hsanity.
    + intros flags svc Hlocation. by apply (run_functions_check_index config).
  - intros env flags Hflag.
    repeat apply Forall_cons_2; [..|apply Forall_nil_2];
      apply command_Run_fails; intros flags' svc config Hflags Hlocation Hname;
      rewrite Hflag in Hname;
      destruct (run_functions_check_index config flags' svc Hname Hlocation)
        as (Hcreate & _ & Hdelete & Hupdate & Hdescribe); eauto.
    eexists. apply Hdescribe. rewrite Hflags. done.
  - intros config client Hsvc. unfold run, placesvc.ListPlaceIndexes.
    by rewrite (on_svc_Some _ client).
Qed.

End IndexName.

(** ** The values [New] fills in *)

Section Defaults.
Context `{SDKTypes}.
Context {marshal_position : Marshal loc.PositionSummaryResults}
        {marshal_suggestion : Marshal loc.SuggestionSummaryResults}
        {marshal_text : Marshal loc.TextSummaryResults}.

(** C9, as the code has it. Whatever the flags and the surroundings, a
    request of the create command carries the data source "Here", the
    pricing plan "RequestBasedUsage" and the intended use "SingleUse"; a
    request of the update command carries that pricing plan and that
    intended use, and has no data source; a request of the position, the
    suggestion or the text command carries the language "en". *)
Theorem requests_carry_the_defaults (env : Env) (flags : loc.Flags) (r : Request) :
  (r ∈ snd (run (loc.cmdCreate_Run env flags)) ->
   Request_DataSource r = Some (Some "Here")
   /\ Request_PricingPlan r = Some "RequestBasedUsage"
   /\ Request_IntendedUse r = Some "SingleUse")
  /\ (r ∈ snd (run (loc.cmdUpdate_Run env flags)) ->
      Request_DataSource r = None
      /\ Request_PricingPlan r = Some "RequestBasedUsage"
      /\ Request_IntendedUse r = Some "SingleUse")
  /\ (r ∈ snd (run (loc.cmdPosition_Run env flags))
      \/ r ∈ snd (run (loc.cmdSuggestion_Run env flags))
      \/ r ∈ snd (run (loc.cmdText_Run env flags)) ->
      Request_Language r = Some (Some "en")).
Proof.
  unfold run, loc.cmdCreate_Run, loc.cmdUpdate_Run, loc.cmdPosition_Run,
    loc.cmdSuggestion_Run, loc.cmdText_Run.
  rewrite !command_Run_trace.
  pose proof (setup_spec env flags []) as Hsetup.
  destruct (loc.setup env flags []) as [[[flags' svc]| |] tr'];
    [|subst tr'; rewrite elem_of_nil; tauto..].
  destruct Hsetup as (-> & Hflags & config & client & Hlocation & Hsvc & Hname
                      & Hservice & Huse & Hlanguage & Hplan).
  split; [|split].
  - destruct (runCreatePlaceIndex_trace config client Hsvc svc flags' [] Hlocation)
      as [->|(tags & _ & _ & ->)]; [by intros ?%elem_of_nil|].
    intros ->%list_elem_of_singleton. simpl. by rewrite Hservice, Huse, Hplan.
  - destruct (runUpdatePlaceIndex_trace config client Hsvc svc flags' [] Hlocation)
      as [->|[_ ->]]; [by intros ?%elem_of_nil|].
    intros ->%list_elem_of_singleton. simpl. by rewrite Huse, Hplan.
  - rewrite (runSearchPosition_trace config client), (runSearchSuggestion_trace config client),
      (runSearchText_trace config client) by done.
    intros [Hr|[Hr|Hr]]; apply list_elem_of_singleton in Hr; subst r;
      simpl; by rewrite Hlanguage.
Qed.

End Defaults.

(** ** The tags of create *)

Section TagParsing.
Context `{SDKTypes}.

(** C4. For every list of tag strings of create, each of the form k=v with
    no other '=', the loop builds the map of the entries k to v, a later
    string overwriting an earlier one of the same key, and every entry is
    in the map when the keys are distinct; every list of strings with
    exactly one '=' each is of that form; and the loop fails with the error
    "invalid tag: " followed by the string at the first tag string that
    does not contain exactly one '=', as "novalue" and "a=b=c" do not:
    create then fails with that error and makes no call. *)
Theorem tags_parsing :
  (forall kvs : list (string * string),
      Forall plain kvs ->
      loc.runCreatePlaceIndex_tags (tag_of <$> kvs) ∅
      = inr (foldl (fun m kv => <[kv.1 := kv.2]> m) ∅ kvs)
      /\ (NoDup kvs.*1 ->
          forall k v, (k, v) ∈ kvs ->
            foldl (fun m kv => <[kv.1 := kv.2]> m) (∅ : gmap string string) kvs !! k
            = Some v))
  /\ (forall tags : list string,
      Forall one_separator tags ->
      exists kvs, Forall plain kvs /\ tags = tag_of <$> kvs)
  /\ (forall (good : list string) (bad : string) (rest : list string),
      Forall one_separator good -> ~ one_separator bad ->
      loc.runCreatePlaceIndex_tags (good ++ bad :: rest) ∅
      = inl (errorString ("invalid tag: " +:+ bad))
      /\ forall flags svc,
          loc.tags flags = good ++ bad :: rest ->
          run (loc.runCreatePlaceIndex flags svc)
          = (Returned (Some (errorString ("invalid tag: " +:+ bad))), []))
  /\ ~ one_separator "novalue"
  /\ ~ one_separator "a=b=c".
Proof.
  split; [|split; [|split; [|split]]].
  - intros kvs Hkvs. split; [by apply tags_loop_plain|].
    intros Hnodup k v Hin. by apply foldl_insert_lookup.
  - intros tags Htags. induction Htags as [|tag tags Htag _ [kvs [Hkvs ->]]].
    + by exists [].
    + apply count_byte_one in Htag as (k & v & -> & Hk & Hv).
      exists ((k, v) :: kvs). split; [|done]. by constructor.
  - intros good bad rest Hgood Hbad.
    assert (Hloop : loc.runCreatePlaceIndex_tags (good ++ bad :: rest) ∅
                    = inl (errorString ("invalid tag: " +:+ bad))).
    { destruct (tags_loop_good_prefix good (bad :: rest) ∅ Hgood) as [tags' ->].
      by apply tags_loop_bad. }
    split; [done|]. intros flags svc Htags.
    unfold run, loc.runCreatePlaceIndex. by rewrite Htags, Hloop.
  - by intros [=].
  - by intros [=].
Qed.

(** C10. A tag string with exactly one '=' is accepted by the loop of
    create also when its key or its value is empty: the loop succeeds on
    it with the one entry of its two pieces; "=v" gives the entry of the
    empty key to "v", and "k=" the entry of "k" to the empty string. *)
Theorem tags_with_empty_key_or_value :
  (forall tag : string,
      one_separator tag ->
      exists k v : string,
        tag = k +:+ "=" +:+ v
        /\ loc.runCreatePlaceIndex_tags [tag] ∅ = inr {[ k := v ]})
  /\ loc.runCreatePlaceIndex_tags ["=v"] ∅ = inr {[ "" := "v" ]}
  /\ loc.runCreatePlaceIndex_tags ["k="] ∅ = inr {[ "k" := "" ]}.
Proof.
  split; [|split; reflexivity].
  intros tag (k & v & -> & Hk & Hv)%count_byte_one.
  exists k, v. split; [done|].
  apply (tags_loop_plain [(k, v)] ∅). by repeat constructor.
Qed.

End TagParsing.

(** ** The properties at work *)

(** A suggestion search with every coordinate given. *)
Lemma search_requests_carry_no_geo_filter_witness :
  placesvc.svc (bare_config "foo") = Some bare_client
  /\ snd (run (loc.runSearchSuggestion (H := bare_SDK)
                 (marshal_suggestion := bare_Marshal _)
                 (flags_of_geo "foo" 10 20 1 2 3 4)
                 {| loc.location := Some (bare_config "foo") |}))
     = [ReqSearchPlaceIndexForSuggestions
          {| SearchPlaceIndexForSuggestionsInput.IndexName := Some "foo";
             SearchPlaceIndexForSuggestionsInput.Text := Some "eiffel";
             SearchPlaceIndexForSuggestionsInput.BiasPosition := [];
             SearchPlaceIndexForSuggestionsInput.FilterBBox := [];
             SearchPlaceIndexForSuggestionsInput.FilterCountries := [];
             SearchPlaceIndexForSuggestionsInput.Language := Some "en" |}].
Proof.
  split; [reflexivity|].
  apply (proj1 (proj2 (proj2
    (search_requests_carry_no_geo_filter (H := bare_SDK)
       (marshal_suggestion := bare_Marshal _) (marshal_text := bare_Marshal _)
       (bare_config "foo") bare_client eq_refl)))).
Defined.

(** The scenario [position --index foo --lat 40.0 --lon -73.0]. *)
Lemma position_is_longitude_first_witness :
  placesvc.svc (bare_config "foo") = Some bare_client
  /\ snd (run (loc.runSearchPosition (H := bare_SDK)
                 (marshal_position := bare_Marshal _)
                 (flags_of_geo "foo" 40.0 (-73.0) 0 0 0 0)
                 {| loc.location := Some (bare_config "foo") |}))
     = [ReqSearchPlaceIndexForPosition
          {| SearchPlaceIndexForPositionInput.IndexName := Some "foo";
             SearchPlaceIndexForPositionInput.Language := Some "en";
             SearchPlaceIndexForPositionInput.Position := [(-73.0)%float; 40.0%float] |}].
Proof.
  split; [reflexivity|].
  apply (proj2
    (position_is_longitude_first (H := bare_SDK) (marshal_position := bare_Marshal _)
       (bare_config "foo") bare_client eq_refl)).
Defined.

(** Describe with no name, on a configuration for the index foo. *)
Lemma describe_index_name_witness :
  placesvc.svc (bare_config "foo") = Some bare_client
  /\ placesvc.indexName (bare_config "foo") <> ""
  /\ run (placesvc.DescribePlaceIndex (bare_config "foo") "")
     = (Returned (inr (tt : @DescribePlaceIndexOutput bare_SDK)),
        [ReqDescribePlaceIndex {| DescribePlaceIndexInput.IndexName := Some "foo" |}]).
Proof.
  split; [reflexivity|]. split; [discriminate|].
  apply (proj1 (proj2
    (describe_index_name (H := bare_SDK) (bare_config "foo") bare_client "" eq_refl)));
    [reflexivity|discriminate].
Defined.

(** Delete on a configuration without an index name. *)
Lemma index_name_is_checked_witness :
  placesvc.indexName (bare_config "") = ""
  /\ run (placesvc.DeletePlaceIndex (bare_config ""))
     = (Returned (inl (errorString "indexName not set")), []).
Proof.
  split; [reflexivity|].
  apply (proj1 (proj2
    (proj1 (index_name_is_checked (H := bare_SDK)
              (marshal_describe := bare_Marshal _)) (bare_config "") eq_refl))).
Defined.

(** C5: list makes its call, and succeeds, without an index name, on the
    service and through its command. *)
Lemma list_runs_without_index_name :
  placesvc.indexName (bare_config "") = ""
  /\ run (placesvc.ListPlaceIndexes (bare_config ""))
     = (Returned (inr (tt : @ListPlaceIndexesOutput bare_SDK)),
        [ReqListPlaceIndexes ListPlaceIndexesInput.Build_t])
  /\ loc.indexName (flags_of_index "") = ""
  /\ run (loc.cmdList_Run (H := bare_SDK) (marshal_list := bare_Marshal _)
            bare_env (flags_of_index ""))
     = (Returned (), [ReqListPlaceIndexes ListPlaceIndexesInput.Build_t]).
Proof. repeat split. Qed.

(** The create command for the index foo. *)
Lemma requests_carry_the_defaults_witness :
  let r := ReqCreatePlaceIndex
             {| CreatePlaceIndexInput.DataSource := Some "Here";
                CreatePlaceIndexInput.DataSourceConfiguration :=
                  Some {| DataSourceConfiguration.IntendedUse := "SingleUse" |};
                CreatePlaceIndexInput.Description := Some "bar";
                CreatePlaceIndexInput.IndexName := Some "foo";
                CreatePlaceIndexInput.PricingPlan := "RequestBasedUsage";
                CreatePlaceIndexInput.Tags := {[ "env" := "prod" ]} |} in
  r ∈ snd (run (loc.cmdCreate_Run (H := bare_SDK) bare_env
                  (flags_of_tags "foo" ["env=prod"])))
  /\ Request_DataSource r = Some (Some "Here")
  /\ Request_PricingPlan r = Some "RequestBasedUsage"
  /\ Request_IntendedUse r = Some "SingleUse".
Proof.
  intros r.
  assert (Hin : r ∈ snd (run (loc.cmdCreate_Run (H := bare_SDK) bare_env
                                (flags_of_tags "foo" ["env=prod"])))).
  { apply list_elem_of_singleton. reflexivity. }
  split; [exact Hin|].
  exact (proj1 (requests_carry_the_defaults (H := bare_SDK)
                  (marshal_position := bare_Marshal _)
                  (marshal_suggestion := bare_Marshal _)
                  (marshal_text := bare_Marshal _)
                  bare_env (flags_of_tags "foo" ["env=prod"]) r) Hin).
Defined.

(** C9: the one request of the update command has no data source. *)
Lemma update_request_has_no_data_source :
  exists r : Request,
    snd (run (loc.cmdUpdate_Run (H := bare_SDK) bare_env (flags_of_index "foo"))) = [r]
    /\ Request_DataSource r <> Some (Some "Here").
Proof. eexists. split; [reflexivity|]. discriminate. Qed.

(** The scenario [create --index foo --description bar --tags env=prod]. *)
Lemma tags_parsing_witness :
  Forall plain [("env", "prod")]
  /\ loc.runCreatePlaceIndex_tags (H := bare_SDK) (tag_of <$> [("env", "prod")]) ∅
     = inr (foldl (fun m kv => <[kv.1 := kv.2]> m) ∅ [("env", "prod")]).
Proof.
  assert (Hplain : Forall plain [("env", "prod")]) by (by repeat constructor).
  split; [exact Hplain|].
  exact (proj1 (proj1 (tags_parsing (H := bare_SDK)) [("env", "prod")] Hplain)).
Defined.

(** The tag string [=v]. *)
Lemma tags_with_empty_key_or_value_witness :
  one_separator "=v"
  /\ exists k v : string,
      "=v" = k +:+ "=" +:+ v
      /\ loc.runCreatePlaceIndex_tags (H := bare_SDK) ["=v"] ∅ = inr {[ k := v ]}.
Proof.
  split; [reflexivity|].
  apply (proj1 (tags_with_empty_key_or_value (H := bare_SDK)) "=v"). reflexivity.
Defined.

(** * Further properties *)

(** ** [New] and its options *)

Section NewOptions.
Context `{SDKTypes}.

(** The configuration the options leave, before the defaults. *)
Lemma New_returns (env : Env) (opts : list placesvc.Option)
    (config : placesvc.Config) (tr : list Request) :
  fst (placesvc.New env opts tr) = Returned config ->
  exists c,
    awsconfig_LoadDefaultConfig env
      (placesvc.loadOptions
         (placesvc.defaults env (foldl (fun config opt => opt config) placesvc.Config_zero opts))
         {| LoadOptions.Region := ""; LoadOptions.SharedConfigProfile := "" |})
    = Some c
    /\ config
       = placesvc.with_svc (Some (location_NewFromConfig env c))
           (placesvc.defaults env
              (foldl (fun config opt => opt config) placesvc.Config_zero opts)).
Proof.
  unfold placesvc.New.
  destruct (awsconfig_LoadDefaultConfig env _) as [c|]; [|done].
  intros [= <-]. by exists c.
Qed.

Lemma exported_options_keep (opts : list placesvc.Option) (config : placesvc.Config) :
  Forall exported_option opts ->
  placesvc.intendedUse (foldl (fun config opt => opt config) config opts)
  = placesvc.intendedUse config
  /\ placesvc.pricingPlan (foldl (fun config opt => opt config) config opts)
     = placesvc.pricingPlan config.
Proof.
  intros Hopts. revert config.
  induction Hopts as [|opt opts Hopt _ IH]; intros config; simpl; [done|].
  destruct (IH (opt config)) as [-> ->]. by destruct Hopt.
Qed.


(** X2. With options of the package only, a configuration [New] returns has the
    intended use "SingleUse" and the pricing plan "RequestBasedUsage": no
    exported option reaches these two fields. *)
Theorem exported_options_keep_use_and_plan (env : Env) (opts : list placesvc.Option)
    (config : placesvc.Config) (tr : list Request) :
  Forall exported_option opts ->
  fst (placesvc.New env opts tr) = Returned config ->
  placesvc.intendedUse config = "SingleUse"
  /\ placesvc.pricingPlan config = "RequestBasedUsage".
Proof.
  intros Hopts (c & _ & ->)%New_returns.
  destruct (exported_options_keep opts placesvc.Config_zero Hopts) as [Huse Hplan].
  set (c0 := foldl _ _ _) in *. clearbody c0. simpl in Huse, Hplan.
  defaults_cases c0; done.
Qed.

(** What [defaults] does to each field. *)
Lemma defaults_fields (env : Env) (c : placesvc.Config) :
  placesvc.indexName (placesvc.defaults env c) = placesvc.indexName c
  /\ placesvc.profile (placesvc.defaults env c) = placesvc.profile c
  /\ placesvc.indexService (placesvc.defaults env c)
     = (if String.eqb (placesvc.indexService c) "" then "Here"
        else placesvc.indexService c)
  /\ placesvc.language (placesvc.defaults env c)
     = (if String.eqb (placesvc.language c) "" then "en" else placesvc.language c)
  /\ placesvc.region (placesvc.defaults env c)
     = (if String.eqb (placesvc.region c) "" then os_Getenv env "AWS_REGION"
        else placesvc.region c).
Proof. defaults_cases c; done. Qed.

(** X3. The option given last decides: the index name is the one of a last
    [SetIndexName]; the data source, the language and the region are the
    ones of a last [SetIndexService], [SetLanguage] and [SetAWSRegion],
    and an empty one of these brings the default back, "Here", "en" and the
    variable AWS_REGION of the environment. *)
Theorem last_option_decides (env : Env) (opts : list placesvc.Option)
    (v : string) (config : placesvc.Config) (tr : list Request) :
  (fst (placesvc.New env (opts ++ [placesvc.SetIndexName v]) tr) = Returned config ->
   placesvc.indexName config = v)
  /\ (fst (placesvc.New env (opts ++ [placesvc.SetIndexService v]) tr) = Returned config ->
      placesvc.indexService config = if String.eqb v "" then "Here" else v)
  /\ (fst (placesvc.New env (opts ++ [placesvc.SetLanguage v]) tr) = Returned config ->
      placesvc.language config = if String.eqb v "" then "en" else v)
  /\ (fst (placesvc.New env (opts ++ [placesvc.SetAWSRegion v]) tr) = Returned config ->
      placesvc.region config
      = if String.eqb v "" then os_Getenv env "AWS_REGION" else v).
Proof.
  repeat split; intros (c & _ & ->)%New_returns; rewrite foldl_app; simpl;
    match goal with
    | |- context [placesvc.defaults env ?c1] =>
        destruct (defaults_fields env c1) as (Hn & _ & Hs & Hl & Hr)
    end; simpl in *; done.
Qed.

End NewOptions.

(** ** The loader of the SDK *)

Section Loader.
Context `{SDKTypes}.

(** X4. [New] loads the SDK with the region of the options, or with the
    variable AWS_REGION when they leave the region empty, and with the
    profile of the options; it panics exactly when the loading fails, and
    otherwise returns a configuration with the client of the loaded SDK. *)
Theorem New_panics_exactly_when_loading_fails (env : Env)
    (opts : list placesvc.Option) (tr : list Request) :
  let given := foldl (fun config opt => opt config) placesvc.Config_zero opts in
  let options :=
    {| LoadOptions.Region :=
         if String.eqb (placesvc.region given) "" then os_Getenv env "AWS_REGION"
         else placesvc.region given;
       LoadOptions.SharedConfigProfile := placesvc.profile given |} in
  (fst (placesvc.New env opts tr) = Panicked <->
   awsconfig_LoadDefaultConfig env options = None)
  /\ forall c : aws_Config,
      awsconfig_LoadDefaultConfig env options = Some c ->
      exists config : placesvc.Config,
        placesvc.New env opts tr = (Returned config, tr)
        /\ placesvc.svc config = Some (location_NewFromConfig env c).
Proof.
  intros given options.
  assert (Hoptions : placesvc.loadOptions (placesvc.defaults env given)
                       {| LoadOptions.Region := "";
                          LoadOptions.SharedConfigProfile := "" |}
                     = options).
  { unfold placesvc.loadOptions, options.
    destruct (defaults_fields env given) as (_ & -> & _ & _ & ->).
    by destruct (String.eqb_spec (placesvc.profile given) "") as [->|]. }
  unfold placesvc.New. fold given. rewrite Hoptions.
  destruct (awsconfig_LoadDefaultConfig env options) as [c|]; [|done].
  split; [done|]. intros ? [= <-]. by eexists.
Qed.

End Loader.

(** ** [setup] *)

Section Setup.
Context `{SDKTypes}.

#[local] Set Warnings "-clear-no-such-hyp".

(** [setup], once the settings of the configuration file are read. *)
Lemma setup_unfold (env : Env) (flags : loc.Flags) (tr : list Request) :
  loc.setup env flags tr
  = if negb (String.eqb (loc.dotenvPath flags) "")
       && negb (os_Stat env (path_Clean env (loc.dotenvPath flags)))
    then (Exited, tr)
    else
      match viper_ReadInConfig env (setup_file env flags) with
      | None => (Exited, tr)
      | Some get =>
          if String.eqb (get "AwsProfile") "" then (Exited, tr)
          else if String.eqb (get "AwsRegion") "" then (Exited, tr)
          else
            match awsconfig_LoadDefaultConfig env
                    {| LoadOptions.Region := get "AwsRegion";
                       LoadOptions.SharedConfigProfile := get "AwsProfile" |} with
            | None => (Panicked, tr)
            | Some c =>
                (Returned
                   (match setup_file env flags with
                    | None => flags
                    | Some p => loc.with_dotenvPath p flags
                    end,
                    {| loc.location :=
                         Some {| placesvc.region := get "AwsRegion";
                                 placesvc.profile := get "AwsProfile";
                                 placesvc.indexService := "Here";
                                 placesvc.indexName := loc.indexName flags;
                                 placesvc.intendedUse := "SingleUse";
                                 placesvc.language := "en";
                                 placesvc.pricingPlan := "RequestBasedUsage";
                                 placesvc.log := Some logrus_New;
                                 placesvc.svc := Some (location_NewFromConfig env c) |} |}),
                 tr)
            end
      end.
Proof.
  unfold loc.setup, setup_file. step_M.
  destruct (String.eqb (loc.dotenvPath flags) ""); simpl.
  - destruct (viper_ReadInConfig env None) as [get|]; [|done].
    destruct (String.eqb (get "AwsProfile") "") eqn:Hprofile; [done|].
    destruct (String.eqb (get "AwsRegion") "") eqn:Hregion; [done|].
    unfold placesvc.New, placesvc.defaults, placesvc.loadOptions. simpl.
    rewrite Hregion. simpl. rewrite Hprofile. simpl.
    by destruct (awsconfig_LoadDefaultConfig env _).
  - destruct (os_Stat env _); [|done]. simpl.
    destruct (viper_ReadInConfig env _) as [get|]; [|done].
    destruct (String.eqb (get "AwsProfile") "") eqn:Hprofile; [done|].
    destruct (String.eqb (get "AwsRegion") "") eqn:Hregion; [done|].
    unfold placesvc.New, placesvc.defaults, placesvc.loadOptions. simpl.
    rewrite Hregion. simpl. rewrite Hprofile. simpl.
    by destruct (awsconfig_LoadDefaultConfig env _).
Qed.




(** X8. Every command calls [setup] twice, from [PersistentPreRun] and from its
    [Run]. When cleaning a path that is clean changes nothing, and a path
    that is not empty stays so, a [setup] that follows a [setup] that
    returned returns the same flags and the same service. *)
Theorem setup_again (env : Env) (flags flags' : loc.Flags) (svc : loc.Sercices)
    (tr tr' : list Request) :
  (forall p, path_Clean env (path_Clean env p) = path_Clean env p) ->
  (forall p, p <> "" -> path_Clean env p <> "") ->
  loc.setup env flags tr = (Returned (flags', svc), tr') ->
  loc.RootCmd_PersistentPreRun env flags tr = (Returned (flags', svc), tr')
  /\ loc.setup env flags' tr' = (Returned (flags', svc), tr').
Proof.
  intros Hidem Hnonempty. unfold loc.RootCmd_PersistentPreRun.
  intros Hsetup. split; [done|]. revert Hsetup.
  rewrite !setup_unfold. unfold setup_file.
  destruct (String.eqb_spec (loc.dotenvPath flags) "") as [Hpath|Hpath]; simpl.
  - destruct (viper_ReadInConfig env None) as [get|] eqn:Hread; [|done].
    destruct (String.eqb (get "AwsProfile") "") eqn:Hp; [done|].
    destruct (String.eqb (get "AwsRegion") "") eqn:Hr; [done|].
    destruct (awsconfig_LoadDefaultConfig env _) as [c|] eqn:Hload; [|done].
    intros [= <- <- <-]. rewrite Hpath. simpl. by rewrite Hread, Hp, Hr, Hload.
  - destruct (os_Stat env _) eqn:Hstat; [|done]. simpl.
    destruct (viper_ReadInConfig env _) as [get|] eqn:Hread; [|done].
    destruct (String.eqb (get "AwsProfile") "") eqn:Hp; [done|].
    destruct (String.eqb (get "AwsRegion") "") eqn:Hr; [done|].
    destruct (awsconfig_LoadDefaultConfig env _) as [c|] eqn:Hload; [|done].
    intros [= <- <- <-]. simpl.
    destruct (String.eqb_spec (path_Clean env (loc.dotenvPath flags)) "") as [Hc|Hc];
      [by apply Hnonempty in Hc|].
    simpl. rewrite Hidem, Hstat, Hread, Hp, Hr, Hload. done.
Qed.

End Setup.

(** ** The run functions, written out *)

Section RunFunctions.
Context `{SDKTypes}.
Context {marshal_describe : Marshal DescribePlaceIndexOutput}
        {marshal_list : Marshal ListPlaceIndexesOutput}
        {marshal_position : Marshal loc.PositionSummaryResults}
        {marshal_suggestion : Marshal loc.SuggestionSummaryResults}
        {marshal_text : Marshal loc.TextSummaryResults}.

Lemma present_eq {T} `{Marshal T} (flags : loc.Flags) (v : T) (tr : list Request) :
  loc.present flags v tr
  = (Returned
       (if loc.json flags then
          match json_Marshal v with
          | inl err => Some (marshalError err)
          | inr _ => None
          end
        else None),
     tr).
Proof.
  unfold loc.present. destruct (loc.json flags); [|done].
  by destruct (json_Marshal v).
Qed.

Variables (config : placesvc.Config) (client : location_Client).
Hypothesis Hsvc : placesvc.svc config = Some client.
Variables (svc : loc.Sercices) (flags : loc.Flags) (tr : list Request).
Hypothesis Hlocation : loc.location svc = Some config.

Lemma runCreatePlaceIndex_eq :
  loc.runCreatePlaceIndex flags svc tr
  = match loc.runCreatePlaceIndex_tags (loc.tags flags) ∅ with
    | inl err => (Returned (Some err), tr)
    | inr tags =>
        if String.eqb (placesvc.indexName config) "" then
          (Returned (Some (errorString "indexName not set")), tr)
        else
          let input :=
            {| CreatePlaceIndexInput.DataSource := Some (placesvc.indexService config);
               CreatePlaceIndexInput.DataSourceConfiguration :=
                 Some {| DataSourceConfiguration.IntendedUse :=
                           placesvc.intendedUse config |};
               CreatePlaceIndexInput.Description := Some (loc.description flags);
               CreatePlaceIndexInput.IndexName := Some (placesvc.indexName config);
               CreatePlaceIndexInput.PricingPlan := placesvc.pricingPlan config;
               CreatePlaceIndexInput.Tags := tags |} in
          (Returned match do_CreatePlaceIndex client input with
                    | inl e => Some (apiError e)
                    | inr _ => None
                    end,
           tr ++ [ReqCreatePlaceIndex input])
    end.
Proof using Hsvc Hlocation.
  unfold loc.runCreatePlaceIndex.
  destruct (loc.runCreatePlaceIndex_tags _ _) as [err|tags]; [done|].
  unfold loc.svc_location, placesvc.CreatePlaceIndex, placesvc.sanity.
  rewrite Hlocation. step_M.
  destruct (String.eqb (placesvc.indexName config) ""); [done|].
  rewrite (on_svc_Some _ client) by done. by destruct (do_CreatePlaceIndex _ _).
Qed.

Lemma runDeletePlaceIndex_eq :
  loc.runDeletePlaceIndex flags svc tr
  = if String.eqb (placesvc.indexName config) "" then
      (Returned (Some (errorString "indexName not set")), tr)
    else
      let input :=
        {| DeletePlaceIndexInput.IndexName := Some (placesvc.indexName config) |} in
      (Returned match do_DeletePlaceIndex client input with
                | inl e => Some (apiError e)
                | inr _ => None
                end,
       tr ++ [ReqDeletePlaceIndex input]).
Proof using Hsvc Hlocation.
  unfold loc.runDeletePlaceIndex, loc.svc_location, placesvc.DeletePlaceIndex,
    placesvc.sanity.
  rewrite Hlocation. step_M.
  destruct (String.eqb (placesvc.indexName config) ""); [done|].
  rewrite (on_svc_Some _ client) by done. by destruct (do_DeletePlaceIndex _ _).
Qed.

Lemma runUpdatePlaceIndex_eq :
  loc.runUpdatePlaceIndex flags svc tr
  = if String.eqb (placesvc.indexName config) "" then
      (Returned (Some (errorString "indexName not set")), tr)
    else
      let input :=
        {| UpdatePlaceIndexInput.IndexName := Some (placesvc.indexName config);
           UpdatePlaceIndexInput.DataSourceConfiguration :=
             Some {| DataSourceConfiguration.IntendedUse :=
                       placesvc.intendedUse config |};
           UpdatePlaceIndexInput.Description := Some (loc.description flags);
           UpdatePlaceIndexInput.PricingPlan := placesvc.pricingPlan config |} in
      (Returned match do_UpdatePlaceIndex client input with
                | inl e => Some (apiError e)
                | inr _ => None
                end,
       tr ++ [ReqUpdatePlaceIndex input]).
Proof using Hsvc Hlocation.
  unfold loc.runUpdatePlaceIndex, loc.svc_location, placesvc.UpdatePlaceIndex,
    placesvc.sanity.
  rewrite Hlocation. step_M.
  destruct (String.eqb (placesvc.indexName config) ""); [done|].
  rewrite (on_svc_Some _ client) by done. by destruct (do_UpdatePlaceIndex _ _).
Qed.

Lemma runDescribeIndex_eq :
  loc.runDescribeIndex flags svc tr
  = if String.eqb (loc.indexName flags) "" && String.eqb (placesvc.indexName config) ""
    then (Returned (Some (errorString "indexName not set")), tr)
    else
      let input :=
        {| DescribePlaceIndexInput.IndexName :=
             Some (if String.eqb (loc.indexName flags) "" then placesvc.indexName config
                   else loc.indexName flags) |} in
      (Returned match do_DescribePlaceIndex client input with
                | inl e => Some (apiError e)
                | inr ret =>
                    if loc.json flags then
                      match json_Marshal ret with
                      | inl err => Some (marshalError err)
                      | inr _ => None
                      end
                    else None
                end,
       tr ++ [ReqDescribePlaceIndex input]).
Proof using Hsvc Hlocation.
  unfold loc.runDescribeIndex, loc.svc_location, placesvc.DescribePlaceIndex,
    placesvc.sanity.
  rewrite Hlocation. step_M.
  destruct (String.eqb (loc.indexName flags) ""); simpl;
    [destruct (String.eqb (placesvc.indexName config) ""); [done|]|];
    rewrite (on_svc_Some _ client) by done;
    (destruct (do_DescribePlaceIndex _ _); simpl; [done|]); by rewrite present_eq.
Qed.

Lemma runListIndexes_eq :
  loc.runListIndexes flags svc tr
  = (Returned match do_ListPlaceIndexes client ListPlaceIndexesInput.Build_t with
              | inl e => Some (apiError e)
              | inr ret =>
                  if loc.json flags then
                    match json_Marshal ret with
                    | inl err => Some (marshalError err)
                    | inr _ => None
                    end
                  else None
              end,
     tr ++ [ReqListPlaceIndexes ListPlaceIndexesInput.Build_t]).
Proof using Hsvc Hlocation.
  unfold loc.runListIndexes, loc.svc_location, placesvc.ListPlaceIndexes.
  rewrite Hlocation. step_M. rewrite (on_svc_Some _ client) by done.
  (destruct (do_ListPlaceIndexes _ _); simpl; [done|]); by rewrite present_eq.
Qed.

Lemma runSearchPosition_eq :
  let input :=
    {| SearchPlaceIndexForPositionInput.IndexName := Some (placesvc.indexName config);
       SearchPlaceIndexForPositionInput.Language := Some (placesvc.language config);
       SearchPlaceIndexForPositionInput.Position := [loc.lon flags; loc.lat flags] |} in
  loc.runSearchPosition flags svc tr
  = (Returned match do_SearchPlaceIndexForPosition client input with
              | inl e => Some (apiError e)
              | inr ret =>
                  if loc.json flags then
                    match json_Marshal
                            (SummaryResults.Build_t (SearchOutput.Summary ret)
                               (SearchOutput.Results ret) : loc.PositionSummaryResults) with
                    | inl err => Some (marshalError err)
                    | inr _ => None
                    end
                  else None
              end,
     tr ++ [ReqSearchPlaceIndexForPosition input]).
Proof using Hsvc Hlocation.
  unfold loc.runSearchPosition, loc.svc_location, placesvc.SearchPlaceIndexForPosition.
  rewrite Hlocation. step_M. rewrite (on_svc_Some _ client) by done.
  (destruct (do_SearchPlaceIndexForPosition _ _); simpl; [done|]);
    by rewrite present_eq.
Qed.

Lemma runSearchSuggestion_eq :
  let input :=
    {| SearchPlaceIndexForSuggestionsInput.IndexName := Some (placesvc.indexName config);
       SearchPlaceIndexForSuggestionsInput.Text := Some (loc.text flags);
       SearchPlaceIndexForSuggestionsInput.BiasPosition := [];
       SearchPlaceIndexForSuggestionsInput.FilterBBox := [];
       SearchPlaceIndexForSuggestionsInput.FilterCountries := loc.countries flags;
       SearchPlaceIndexForSuggestionsInput.Language :=
         Some (placesvc.language config) |} in
  loc.runSearchSuggestion flags svc tr
  = (Returned match do_SearchPlaceIndexForSuggestions client input with
              | inl e => Some (apiError e)
              | inr ret =>
                  if loc.json flags then
                    match json_Marshal
                            (SummaryResults.Build_t (SearchOutput.Summary ret)
                               (SearchOutput.Results ret) : loc.SuggestionSummaryResults) with
                    | inl err => Some (marshalError err)
                    | inr _ => None
                    end
                  else None
              end,
     tr ++ [ReqSearchPlaceIndexForSuggestions input]).
Proof using Hsvc Hlocation.
  unfold loc.runSearchSuggestion, loc.svc_location,
    placesvc.SearchPlaceIndexForSuggestions.
  rewrite Hlocation. step_M. rewrite (on_svc_Some _ client) by done.
  (destruct (do_SearchPlaceIndexForSuggestions _ _); simpl; [done|]);
    by rewrite present_eq.
Qed.

Lemma runSearchText_eq :
  let input :=
    {| SearchPlaceIndexForTextInput.IndexName := Some (placesvc.indexName config);
       SearchPlaceIndexForTextInput.Text := Some (loc.text flags);
       SearchPlaceIndexForTextInput.BiasPosition := [];
       SearchPlaceIndexForTextInput.FilterBBox := [];
       SearchPlaceIndexForTextInput.FilterCountries := loc.countries flags;
       SearchPlaceIndexForTextInput.Language := Some (placesvc.language config) |} in
  loc.runSearchText flags svc tr
  = (Returned match do_SearchPlaceIndexForText client input with
              | inl e => Some (apiError e)
              | inr ret =>
                  if loc.json flags then
                    match json_Marshal
                            (SummaryResults.Build_t (SearchOutput.Summary ret)
                               (SearchOutput.Results ret) : loc.TextSummaryResults) with
                    | inl err => Some (marshalError err)
                    | inr _ => None
                    end
                  else None
              end,
     tr ++ [ReqSearchPlaceIndexForText input]).
Proof using Hsvc Hlocation.
  unfold loc.runSearchText, loc.svc_location, placesvc.SearchPlaceIndexForText.
  rewrite Hlocation. step_M. rewrite (on_svc_Some _ client) by done.
  (destruct (do_SearchPlaceIndexForText _ _); simpl; [done|]);
    by rewrite present_eq.
Qed.

End RunFunctions.

(** ** The commands, end to end *)

(** The flags [setup] returns differ from the ones it was given in the path
    of the configuration file only. *)
Lemma with_dotenvPath_fields (p : string) (flags flags' : loc.Flags) :
  flags' = loc.with_dotenvPath p flags ->
  loc.indexName flags' = loc.indexName flags
  /\ loc.description flags' = loc.description flags
  /\ loc.tags flags' = loc.tags flags
  /\ loc.json flags' = loc.json flags
  /\ loc.text flags' = loc.text flags
  /\ loc.countries flags' = loc.countries flags
  /\ loc.lat flags' = loc.lat flags
  /\ loc.lon flags' = loc.lon flags.
Proof. by intros ->. Qed.

(** Open a command: [setup] did not return, or it returned the flags
    [flags'] and a service whose configuration [config] has the client
    [client]. *)
Ltac open_command env flags :=
  unfold run; rewrite ?command_Run_trace;
  let Hsetup := fresh "Hsetup" in
  pose proof (setup_spec env flags []) as Hsetup;
  destruct (loc.setup env flags []) as [[[flags' svc]| |] tr'];
  [destruct Hsetup as (-> & Hflags & config & client & Hlocation & Hsvc & Hname
                       & Hservice & Huse & Hlanguage & Hplan);
   apply with_dotenvPath_fields in Hflags
     as (Hf_index & Hf_description & Hf_tags & Hf_json & Hf_text & Hf_countries
         & Hf_lat & Hf_lon)
  |subst tr'..].

Section Commands.
Context `{SDKTypes}.
Context {marshal_describe : Marshal DescribePlaceIndexOutput}
        {marshal_list : Marshal ListPlaceIndexesOutput}
        {marshal_position : Marshal loc.PositionSummaryResults}
        {marshal_suggestion : Marshal loc.SuggestionSummaryResults}
        {marshal_text : Marshal loc.TextSummaryResults}.

(** X9. Each of the eight commands makes at most one call on the client,
    whatever the flags, the surroundings and the answers of the client. *)
Theorem commands_make_at_most_one_call (env : Env) (flags : loc.Flags) :
  Forall (fun command : Env -> loc.Flags -> M unit =>
            length (snd (run (command env flags))) <= 1)
    [loc.cmdCreate_Run; loc.cmdDelete_Run; loc.cmdDescribe_Run; loc.cmdList_Run;
     loc.cmdPosition_Run; loc.cmdSuggestion_Run; loc.cmdText_Run; loc.cmdUpdate_Run].
Proof.
  repeat apply Forall_cons_2; [..|apply Forall_nil_2].
  - unfold loc.cmdCreate_Run. open_command env flags; [|simpl; lia..].
    rewrite (runCreatePlaceIndex_eq config client) by done.
    destruct (loc.runCreatePlaceIndex_tags _ _); [simpl; lia|].
    destruct (String.eqb _ _); simpl; lia.
  - unfold loc.cmdDelete_Run. open_command env flags; [|simpl; lia..].
    rewrite (runDeletePlaceIndex_eq config client) by done.
    destruct (String.eqb _ _); simpl; lia.
  - unfold loc.cmdDescribe_Run. open_command env flags; [|simpl; lia..].
    rewrite (runDescribeIndex_eq config client) by done.
    destruct (_ && _); simpl; lia.
  - unfold loc.cmdList_Run. open_command env flags; [|simpl; lia..].
    rewrite (runListIndexes_eq config client) by done. simpl. lia.
  - unfold loc.cmdPosition_Run. open_command env flags; [|simpl; lia..].
    rewrite (runSearchPosition_eq config client) by done. simpl. lia.
  - unfold loc.cmdSuggestion_Run. open_command env flags; [|simpl; lia..].
    rewrite (runSearchSuggestion_eq config client) by done. simpl. lia.
  - unfold loc.cmdText_Run. open_command env flags; [|simpl; lia..].
    rewrite (runSearchText_eq config client) by done. simpl. lia.
  - unfold loc.cmdUpdate_Run. open_command env flags; [|simpl; lia..].
    rewrite (runUpdatePlaceIndex_eq config client) by done.
    destruct (String.eqb _ _); simpl; lia.
Qed.

(** X10. A request of create, delete, describe, update or of one of the three
    searches names the index of the flag [--index], and no other; the
    request of list is the empty request. *)
Theorem requests_name_the_index_flag (env : Env) (flags : loc.Flags) (r : Request) :
  (forall command : Env -> loc.Flags -> M unit,
      command ∈ [loc.cmdCreate_Run; loc.cmdDelete_Run; loc.cmdDescribe_Run;
                 loc.cmdPosition_Run; loc.cmdSuggestion_Run; loc.cmdText_Run;
                 loc.cmdUpdate_Run] ->
      r ∈ snd (run (command env flags)) ->
      Request_IndexName r = Some (Some (loc.indexName flags)))
  /\ (r ∈ snd (run (loc.cmdList_Run env flags)) ->
      r = ReqListPlaceIndexes ListPlaceIndexesInput.Build_t).
Proof.
  split.
  - intros command Hcommand.
    repeat (apply elem_of_cons in Hcommand as [->|Hcommand]);
      [..|by apply elem_of_nil in Hcommand].
    + unfold loc.cmdCreate_Run. open_command env flags; [|by intros ?%elem_of_nil..].
      rewrite (runCreatePlaceIndex_eq config client) by done.
      destruct (loc.runCreatePlaceIndex_tags _ _); [by intros ?%elem_of_nil|].
      destruct (String.eqb _ _); [by intros ?%elem_of_nil|].
      intros ->%list_elem_of_singleton. simpl. by rewrite Hname.
    + unfold loc.cmdDelete_Run. open_command env flags; [|by intros ?%elem_of_nil..].
      rewrite (runDeletePlaceIndex_eq config client) by done.
      destruct (String.eqb _ _); [by intros ?%elem_of_nil|].
      intros ->%list_elem_of_singleton. simpl. by rewrite Hname.
    + unfold loc.cmdDescribe_Run. open_command env flags; [|by intros ?%elem_of_nil..].
      rewrite (runDescribeIndex_eq config client) by done.
      destruct (_ && _); [by intros ?%elem_of_nil|].
      intros ->%list_elem_of_singleton. simpl. rewrite Hname, Hf_index.
      by destruct (String.eqb _ _).
    + unfold loc.cmdPosition_Run. open_command env flags; [|by intros ?%elem_of_nil..].
      rewrite (runSearchPosition_eq config client) by done.
      intros ->%list_elem_of_singleton. simpl. by rewrite Hname.
    + unfold loc.cmdSuggestion_Run. open_command env flags; [|by intros ?%elem_of_nil..].
      rewrite (runSearchSuggestion_eq config client) by done.
      intros ->%list_elem_of_singleton. simpl. by rewrite Hname.
    + unfold loc.cmdText_Run. open_command env flags; [|by intros ?%elem_of_nil..].
      rewrite (runSearchText_eq config client) by done.
      intros ->%list_elem_of_singleton. simpl. by rewrite Hname.
    + unfold loc.cmdUpdate_Run. open_command env flags; [|by intros ?%elem_of_nil..].
      rewrite (runUpdatePlaceIndex_eq config client) by done.
      destruct (String.eqb _ _); [by intros ?%elem_of_nil|].
      intros ->%list_elem_of_singleton. simpl. by rewrite Hname.
  - unfold loc.cmdList_Run. open_command env flags; [|by intros ?%elem_of_nil..].
    rewrite (runListIndexes_eq config client) by done.
    by intros ->%list_elem_of_singleton.
Qed.


(** X11. When [setup] returns and the flag [--index] is not empty, the four
    index commands make exactly one call: create with the data source
    "Here", the intended use "SingleUse", the pricing plan
    "RequestBasedUsage", the description and the index of the flags and the
    map of its tags; delete and describe with the index of the flags;
    update with the index and the description of the flags, the intended
    use and the pricing plan. *)
Theorem index_commands_requests (env : Env) (flags : loc.Flags)
    (returned : loc.Flags * loc.Sercices) :
  fst (loc.setup env flags []) = Returned returned ->
  loc.indexName flags <> "" ->
  (forall tags : gmap string string,
      loc.runCreatePlaceIndex_tags (loc.tags flags) ∅ = inr tags ->
      snd (run (loc.cmdCreate_Run env flags))
      = [ReqCreatePlaceIndex
           {| CreatePlaceIndexInput.DataSource := Some "Here";
              CreatePlaceIndexInput.DataSourceConfiguration :=
                Some {| DataSourceConfiguration.IntendedUse := "SingleUse" |};
              CreatePlaceIndexInput.Description := Some (loc.description flags);
              CreatePlaceIndexInput.IndexName := Some (loc.indexName flags);
              CreatePlaceIndexInput.PricingPlan := "RequestBasedUsage";
              CreatePlaceIndexInput.Tags := tags |}])
  /\ snd (run (loc.cmdDelete_Run env flags))
     = [ReqDeletePlaceIndex
          {| DeletePlaceIndexInput.IndexName := Some (loc.indexName flags) |}]
  /\ snd (run (loc.cmdDescribe_Run env flags))
     = [ReqDescribePlaceIndex
          {| DescribePlaceIndexInput.IndexName := Some (loc.indexName flags) |}]
  /\ snd (run (loc.cmdUpdate_Run env flags))
     = [ReqUpdatePlaceIndex
          {| UpdatePlaceIndexInput.IndexName := Some (loc.indexName flags);
             UpdatePlaceIndexInput.DataSourceConfiguration :=
               Some {| DataSourceConfiguration.IntendedUse := "SingleUse" |};
             UpdatePlaceIndexInput.Description := Some (loc.description flags);
             UpdatePlaceIndexInput.PricingPlan := "RequestBasedUsage" |}].
Proof.
  intros Hreturned Hindex. apply String.eqb_neq in Hindex.
  revert Hreturned. unfold loc.cmdCreate_Run, loc.cmdDelete_Run,
    loc.cmdDescribe_Run, loc.cmdUpdate_Run.
  open_command env flags; [intros _|done..].
  rewrite (runDeletePlaceIndex_eq config client),
    (runDescribeIndex_eq config client), (runUpdatePlaceIndex_eq config client) by done.
  rewrite Hname, Hf_index, Hf_description, Hindex, Huse, Hplan. simpl.
  repeat split. intros tags Htags.
  rewrite (runCreatePlaceIndex_eq config client) by done.
  rewrite Hf_tags, Htags, Hname, Hindex, Hf_description, Hservice, Huse, Hplan. done.
Qed.


End Commands.

(** ** The searches and the index name *)

Section SearchesUnchecked.
Context `{SDKTypes}.

(** X13. The three searches make no configuration check: with an empty index
    name each makes its call, with the empty name in the request, and
    returns the answer of the client. *)
Theorem searches_do_not_check_the_index_name
    (config : placesvc.Config) (client : location_Client) :
  placesvc.svc config = Some client ->
  placesvc.indexName config = "" ->
  (forall latLon : placesvc.LatLon.t,
      let input :=
        {| SearchPlaceIndexForPositionInput.IndexName := Some "";
           SearchPlaceIndexForPositionInput.Language := Some (placesvc.language config);
           SearchPlaceIndexForPositionInput.Position :=
             [placesvc.LatLon.Longitude latLon; placesvc.LatLon.Latitude latLon] |} in
      run (placesvc.SearchPlaceIndexForPosition config latLon)
      = (Returned (answer (do_SearchPlaceIndexForPosition client input)),
         [ReqSearchPlaceIndexForPosition input]))
  /\ (forall search : placesvc.SuggestionSearch.t,
      let input :=
        {| SearchPlaceIndexForSuggestionsInput.IndexName := Some "";
           SearchPlaceIndexForSuggestionsInput.Text :=
             placesvc.SuggestionSearch.Text search;
           SearchPlaceIndexForSuggestionsInput.BiasPosition := [];
           SearchPlaceIndexForSuggestionsInput.FilterBBox := [];
           SearchPlaceIndexForSuggestionsInput.FilterCountries :=
             placesvc.SuggestionSearch.FilterCountries search;
           SearchPlaceIndexForSuggestionsInput.Language :=
             Some (placesvc.language config) |} in
      run (placesvc.SearchPlaceIndexForSuggestions config search)
      = (Returned (answer (do_SearchPlaceIndexForSuggestions client input)),
         [ReqSearchPlaceIndexForSuggestions input]))
  /\ (forall search : placesvc.SuggestionSearch.t,
      let input :=
        {| SearchPlaceIndexForTextInput.IndexName := Some "";
           SearchPlaceIndexForTextInput.Text := placesvc.SuggestionSearch.Text search;
           SearchPlaceIndexForTextInput.BiasPosition := [];
           SearchPlaceIndexForTextInput.FilterBBox := [];
           SearchPlaceIndexForTextInput.FilterCountries :=
             placesvc.SuggestionSearch.FilterCountries search;
           SearchPlaceIndexForTextInput.Language := Some (placesvc.language config) |} in
      run (placesvc.SearchPlaceIndexForText config search)
      = (Returned (answer (do_SearchPlaceIndexForText client input)),
         [ReqSearchPlaceIndexForText input])).
Proof.
  intros Hsvc Hname. unfold run, placesvc.SearchPlaceIndexForPosition,
    placesvc.SearchPlaceIndexForSuggestions, placesvc.SearchPlaceIndexForText.
  repeat split; intros; rewrite (on_svc_Some _ client) by done; by rewrite Hname.
Qed.

End SearchesUnchecked.

(** ** The answers of the client *)

Section Answers.
Context `{SDKTypes}.

#[local] Set Warnings "-clear-no-such-hyp".

Context {marshal_describe : Marshal DescribePlaceIndexOutput}
        {marshal_list : Marshal ListPlaceIndexesOutput}
        {marshal_position : Marshal loc.PositionSummaryResults}
        {marshal_suggestion : Marshal loc.SuggestionSummaryResults}
        {marshal_text : Marshal loc.TextSummaryResults}.


(** X14. An error of the client comes back unchanged: when the client answers
    every call with the error [e], list and the three searches return [e];
    so do delete, update and describe on a configuration with an index
    name, and create when, besides, its tags are well formed. *)
Theorem backend_errors_pass_unchanged
    (config : placesvc.Config) (client : location_Client) (e : APIError)
    (svc : loc.Sercices) (flags : loc.Flags) :
  placesvc.svc config = Some client ->
  loc.location svc = Some config ->
  failing client e ->
  fst (run (loc.runListIndexes flags svc)) = Returned (Some (apiError e))
  /\ fst (run (loc.runSearchPosition flags svc)) = Returned (Some (apiError e))
  /\ fst (run (loc.runSearchSuggestion flags svc)) = Returned (Some (apiError e))
  /\ fst (run (loc.runSearchText flags svc)) = Returned (Some (apiError e))
  /\ (placesvc.indexName config <> "" ->
      fst (run (loc.runDeletePlaceIndex flags svc)) = Returned (Some (apiError e))
      /\ fst (run (loc.runUpdatePlaceIndex flags svc)) = Returned (Some (apiError e))
      /\ fst (run (loc.runDescribeIndex flags svc)) = Returned (Some (apiError e))
      /\ forall tags : gmap string string,
          loc.runCreatePlaceIndex_tags (loc.tags flags) ∅ = inr tags ->
          fst (run (loc.runCreatePlaceIndex flags svc)) = Returned (Some (apiError e))).
Proof.
  intros Hsvc Hlocation
    (Hcreate & Hdelete & Hdescribe & Hlist & Hposition & Hsuggestion & Htext & Hupdate).
  unfold run.
  rewrite (runListIndexes_eq config client), (runSearchPosition_eq config client),
    (runSearchSuggestion_eq config client), (runSearchText_eq config client),
    (runDeletePlaceIndex_eq config client), (runUpdatePlaceIndex_eq config client),
    (runDescribeIndex_eq config client) by done.
  rewrite Hlist, Hposition, Hsuggestion, Htext.
  split_and!; try done. intros Hindex%String.eqb_neq.
  rewrite Hindex, andb_false_r. split_and!.
  - simpl. by rewrite Hdelete.
  - simpl. by rewrite Hupdate.
  - simpl. by rewrite Hdescribe.
  - intros tags Htags. rewrite (runCreatePlaceIndex_eq config client) by done.
    rewrite Htags, Hindex. simpl. by rewrite Hcreate.
Qed.



End Answers.

(** ** The map of the tags *)

Section TagMap.
Context `{SDKTypes}.

#[local] Set Warnings "-clear-no-such-hyp".

Lemma foldl_insert_other (kvs : list (string * string)) (m : gmap string string)
    (k : string) :
  k ∉ kvs.*1 ->
  foldl (fun m kv => <[kv.1 := kv.2]> m) m kvs !! k = m !! k.
Proof.
  revert m. induction kvs as [|[k' v'] kvs IH]; intros m; simpl; [done|].
  intros [Hne Hk]%not_elem_of_cons. rewrite IH by done.
  by rewrite lookup_insert_ne.
Qed.

Lemma foldl_insert_None (kvs : list (string * string)) (m : gmap string string)
    (k : string) :
  foldl (fun m kv => <[kv.1 := kv.2]> m) m kvs !! k = None <->
  m !! k = None /\ k ∉ kvs.*1.
Proof.
  revert m. induction kvs as [|[k' v'] kvs IH]; intros m; simpl.
  - split; [by intros ?; split; [|apply not_elem_of_nil]|by intros []].
  - rewrite IH, not_elem_of_cons. destruct (decide (k' = k)) as [->|Hne].
    + rewrite lookup_insert_eq. naive_solver.
    + rewrite lookup_insert_ne by done. naive_solver.
Qed.

Lemma foldl_insert_size (kvs : list (string * string)) (m : gmap string string) :
  size (foldl (fun m kv => <[kv.1 := kv.2]> m) m kvs) <= size m + length kvs.
Proof.
  revert m. induction kvs as [|[k' v'] kvs IH]; intros m; simpl; [lia|].
  etrans; [apply IH|]. rewrite map_size_insert.
  destruct (m !! k'); unfold id; lia.
Qed.

(** X17. When the loop of create succeeds on the tag strings of the entries
    [kvs], its map has exactly the keys of the entries, at most as many as
    there are tag strings, and a key that is given more than once holds the
    value of its last tag string. *)
Theorem tags_last_entry_wins (kvs : list (string * string)) (m : gmap string string) :
  Forall plain kvs ->
  loc.runCreatePlaceIndex_tags (tag_of <$> kvs) ∅ = inr m ->
  (forall k : string, m !! k = None <-> k ∉ kvs.*1)
  /\ (forall (before : list (string * string)) (k v : string)
             (after : list (string * string)),
      kvs = before ++ (k, v) :: after -> k ∉ after.*1 -> m !! k = Some v)
  /\ size m <= length kvs.
Proof.
  intros Hplain. rewrite tags_loop_plain by done. intros [= <-]. split_and!.
  - intros k. rewrite foldl_insert_None, lookup_empty. naive_solver.
  - intros before k v after -> Hafter. rewrite foldl_app. simpl.
    rewrite foldl_insert_other by done. apply lookup_insert_eq.
  - etrans; [apply foldl_insert_size|]. by rewrite map_size_empty.
Qed.

End TagMap.

(** ** The validators and the two filters together *)

Section BothFilters.
Context `{SDKTypes}.

(** X18. The documentation of [SuggestionSearch] calls the bias position and the
    bounding box mutually exclusive; the validators do not look at that:
    flags that give both, whole, are accepted by both. *)
Theorem validators_accept_bias_with_bbox (flags : loc.Flags) :
  Go.ne0 (loc.lat flags) = true -> Go.ne0 (loc.lon flags) = true ->
  Go.ne0 (loc.x1 flags) = true -> Go.ne0 (loc.x2 flags) = true ->
  Go.ne0 (loc.y1 flags) = true -> Go.ne0 (loc.y2 flags) = true ->
  loc.cmdSuggestion_PreRunE flags = None /\ loc.cmdText_PreRunE flags = None.
Proof.
  intros Hlat Hlon Hx1 Hx2 Hy1 Hy2.
  split; [|unfold loc.cmdText_PreRunE]; by_cases flags; done.
Qed.

End BothFilters.

(** ** [main] *)

Section Main.
Context `{SDKTypes}.

(** X19. [main] drops what [Execute] returns: when [Execute] returns, with an
    error or without, [main] ends normally, having made the same calls; the
    deferred check of [err] never ends the process. *)
Theorem main_drops_the_error_of_Execute (RootCmd_Execute : M (option error))
    (result : option error) (tr tr' : list Request) :
  RootCmd_Execute tr = (Returned result, tr') ->
  cmd_loc.main RootCmd_Execute tr = (Returned (), tr')
  /\ fst (cmd_loc.Execute RootCmd_Execute tr) = Returned result.
Proof.
  intros Hexecute. unfold cmd_loc.main, cmd_loc.Execute. step_M.
  by rewrite Hexecute.
Qed.

End Main.

(** ** The further properties at work *)

(** [New] with a data source, a language and an index name. *)
Lemma exported_options_keep_use_and_plan_witness :
  let opts : list (@placesvc.Option bare_SDK) :=
    [placesvc.SetIndexService "Esri"; placesvc.SetLanguage "fr";
     placesvc.SetIndexName "foo"] in
  exists config : @placesvc.Config bare_SDK,
    Forall exported_option opts
    /\ fst (placesvc.New bare_env opts []) = Returned config
    /\ placesvc.indexService config = "Esri"
    /\ placesvc.intendedUse config = "SingleUse"
    /\ placesvc.pricingPlan config = "RequestBasedUsage".
Proof.
  intros opts.
  assert (Hopts : Forall exported_option opts).
  { repeat apply Forall_cons_2; [..|apply Forall_nil_2]; constructor. }
  eexists. split; [exact Hopts|]. split; [reflexivity|]. split; [reflexivity|].
  exact (exported_options_keep_use_and_plan bare_env opts _ [] Hopts eq_refl).
Defined.


(** [setup] twice, for [--dotenv loc.yaml --index foo]. *)
Lemma setup_again_witness :
  loc.setup bare_env (loc.with_dotenvPath "loc.yaml" (flags_of_index "foo")) []
  = (Returned (loc.with_dotenvPath "loc.yaml" (flags_of_index "foo"),
               {| loc.location := Some (bare_config "foo") |}), [])
  /\ loc.setup bare_env (loc.with_dotenvPath "loc.yaml" (flags_of_index "foo")) []
     = (Returned (loc.with_dotenvPath "loc.yaml" (flags_of_index "foo"),
                  {| loc.location := Some (bare_config "foo") |}), []).
Proof.
  split; [reflexivity|].
  exact (proj2 (setup_again (H := bare_SDK) bare_env
                  (loc.with_dotenvPath "loc.yaml" (flags_of_index "foo"))
                  (loc.with_dotenvPath "loc.yaml" (flags_of_index "foo"))
                  {| loc.location := Some (bare_config "foo") |} [] []
                  (fun p => eq_refl) (fun p Hp => Hp) eq_refl)).
Defined.

(** The scenario [create --index foo --description bar --tags env=prod],
    and delete, for the same index. *)
Lemma index_commands_requests_witness :
  snd (run (loc.cmdCreate_Run (H := bare_SDK) bare_env
              (flags_of_tags "foo" ["env=prod"])))
  = [ReqCreatePlaceIndex
       {| CreatePlaceIndexInput.DataSource := Some "Here";
          CreatePlaceIndexInput.DataSourceConfiguration :=
            Some {| DataSourceConfiguration.IntendedUse := "SingleUse" |};
          CreatePlaceIndexInput.Description := Some "bar";
          CreatePlaceIndexInput.IndexName := Some "foo";
          CreatePlaceIndexInput.PricingPlan := "RequestBasedUsage";
          CreatePlaceIndexInput.Tags := {[ "env" := "prod" ]} |}]
  /\ snd (run (loc.cmdDelete_Run (H := bare_SDK) bare_env
                 (flags_of_tags "foo" ["env=prod"])))
     = [ReqDeletePlaceIndex {| DeletePlaceIndexInput.IndexName := Some "foo" |}].
Proof.
  pose proof (index_commands_requests (H := bare_SDK)
                (marshal_describe := bare_Marshal _)
                bare_env (flags_of_tags "foo" ["env=prod"])
                (flags_of_tags "foo" ["env=prod"],
                 {| loc.location := Some (bare_config "foo") |})
                eq_refl
                (fun Habs => eq_ind "foo" (fun s => match s with
                                                     | EmptyString => False
                                                     | String _ _ => True
                                                     end) I "" Habs))
    as (Hcreate & Hdelete & _).
  split; [|exact Hdelete]. exact (Hcreate {[ "env" := "prod" ]} eq_refl).
Defined.


(** The position search on a configuration without an index name. *)
Lemma searches_do_not_check_the_index_name_witness :
  run (placesvc.SearchPlaceIndexForPosition (bare_config "")
         {| placesvc.LatLon.Latitude := 40.0; placesvc.LatLon.Longitude := (-73.0) |})
  = (Returned (inr ({| SearchOutput.Summary := None; SearchOutput.Results := [] |}
                    : @SearchPlaceIndexForPositionOutput bare_SDK)),
     [ReqSearchPlaceIndexForPosition
        {| SearchPlaceIndexForPositionInput.IndexName := Some "";
           SearchPlaceIndexForPositionInput.Language := Some "en";
           SearchPlaceIndexForPositionInput.Position := [(-73.0)%float; 40.0%float] |}]).
Proof.
  exact (proj1
    (searches_do_not_check_the_index_name (H := bare_SDK) (bare_config "") bare_client
       eq_refl eq_refl)
    {| placesvc.LatLon.Latitude := 40.0; placesvc.LatLon.Longitude := (-73.0) |}).
Defined.

(** A client that denies every call: list and delete return its error. *)
Lemma backend_errors_pass_unchanged_witness :
  fst (run (loc.runListIndexes (H := bare_SDK) (marshal_list := bare_Marshal _)
              (flags_of_index "foo")
              {| loc.location := Some (config_on (broken_client "AccessDenied") "foo") |}))
  = Returned (Some (apiError ("AccessDenied" : @APIError bare_SDK)))
  /\ fst (run (loc.runDeletePlaceIndex (H := bare_SDK) (flags_of_index "foo")
                 {| loc.location :=
                      Some (config_on (broken_client "AccessDenied") "foo") |}))
     = Returned (Some (apiError ("AccessDenied" : @APIError bare_SDK))).
Proof.
  pose proof (backend_errors_pass_unchanged (H := bare_SDK)
                (marshal_describe := bare_Marshal _) (marshal_list := bare_Marshal _)
                (marshal_position := bare_Marshal _)
                (marshal_suggestion := bare_Marshal _) (marshal_text := bare_Marshal _)
                (config_on (broken_client "AccessDenied") "foo")
                (broken_client "AccessDenied") "AccessDenied"
                {| loc.location := Some (config_on (broken_client "AccessDenied") "foo") |}
                (flags_of_index "foo") eq_refl eq_refl
                (conj (fun _ => eq_refl) (conj (fun _ => eq_refl)
                  (conj (fun _ => eq_refl) (conj (fun _ => eq_refl)
                    (conj (fun _ => eq_refl) (conj (fun _ => eq_refl)
                      (conj (fun _ => eq_refl) (fun _ => eq_refl)))))))))
    as (Hlist & _ & _ & _ & Hindex).
  split; [exact Hlist|].
  exact (proj1 (Hindex (fun Habs => eq_ind "foo" (fun s => match s with
                                                            | EmptyString => False
                                                            | String _ _ => True
                                                            end) I "" Habs))).
Defined.



(** The tags [env=dev,team=geo,env=prod]: the key env holds prod. *)
Lemma tags_last_entry_wins_witness :
  Forall plain [("env", "dev"); ("team", "geo"); ("env", "prod")]
  /\ loc.runCreatePlaceIndex_tags (H := bare_SDK)
       (tag_of <$> [("env", "dev"); ("team", "geo"); ("env", "prod")]) ∅
     = inr (<["env" := "prod"]> (<["team" := "geo"]> (<["env" := "dev"]> ∅)))
  /\ (<["env" := "prod"]> (<["team" := "geo"]> (<["env" := "dev"]> ∅))
        : gmap string string) !! "env" = Some "prod".
Proof.
  assert (Hplain : Forall plain [("env", "dev"); ("team", "geo"); ("env", "prod")])
    by (by repeat constructor).
  split; [exact Hplain|]. split; [reflexivity|].
  apply (proj1 (proj2
    (tags_last_entry_wins (H := bare_SDK)
       [("env", "dev"); ("team", "geo"); ("env", "prod")] _ Hplain eq_refl))
    [("env", "dev"); ("team", "geo")] "env" "prod" []); [reflexivity|].
  apply not_elem_of_nil.
Defined.

(** A suggestion with a bias position and a bounding box. *)
Lemma validators_accept_bias_with_bbox_witness :
  loc.cmdSuggestion_PreRunE (H := bare_SDK) (flags_of_geo "foo" 10 20 1 2 3 4) = None
  /\ loc.cmdText_PreRunE (H := bare_SDK) (flags_of_geo "foo" 10 20 1 2 3 4) = None.
Proof.
  exact (validators_accept_bias_with_bbox (H := bare_SDK)
           (flags_of_geo "foo" 10 20 1 2 3 4)
           eq_refl eq_refl eq_refl eq_refl eq_refl eq_refl).
Defined.

(** An [Execute] that returns the error of the validator of suggestion. *)
Lemma main_drops_the_error_of_Execute_witness :
  cmd_loc.main (H := bare_SDK)
    (mret (loc.cmdSuggestion_PreRunE (flags_of_geo "foo" 10 0 0 0 0 0))) []
  = (Returned (), [])
  /\ fst (cmd_loc.Execute (H := bare_SDK)
            (mret (loc.cmdSuggestion_PreRunE (flags_of_geo "foo" 10 0 0 0 0 0))) [])
     = Returned (Some (errorString "latitude is set but longitude is not")).
Proof.
  exact (main_drops_the_error_of_Execute (H := bare_SDK)
           (mret (loc.cmdSuggestion_PreRunE (flags_of_geo "foo" 10 0 0 0 0 0)))
           (Some (errorString "latitude is set but longitude is not")) [] []
           eq_refl).
Defined.
